(** * honggfuzz: the statistics display (display.c)

    A shallow embedding of [display_put] and [display_displayLocked] and the
    properties of one rendered frame: clamping of the iteration counter, the
    per-interval and average rates, the coverage percentage, the conditional
    report lines, the write calls issued and the accesses made to the shared
    [honggfuzz_t]. *)

From Stdlib Require Import ZArith List String Ascii Bool Lia.
From Stdlib Require Import DecimalString.
From Stdlib Require Import PrimFloat.
Import ListNotations.

Open Scope string_scope.
Open Scope list_scope.
Open Scope Z_scope.

(** ** Machine integers *)

(** Conversion to an unsigned integer type of [bits] bits. *)
Definition wrap (bits : Z) (x : Z) : Z := x mod 2 ^ bits.

Definition to_uint64 (x : Z) : Z := wrap 64 x.
Definition to_uint8 (x : Z) : Z := wrap 8 x.

Definition in_range (bits : Z) (x : Z) : Prop := 0 <= x < 2 ^ bits.

(** ** Text *)

Definition ESC : string := String (ascii_of_nat 27) "".
Definition NL : string := String (ascii_of_nat 10) "".

(** [#define ESC_CLEAR "\033[H\033[2J"] and friends. *)
Definition ESC_CLEAR : string := ESC ++ "[H" ++ ESC ++ "[2J".
Definition ESC_BOLD : string := ESC ++ "[1m".
Definition ESC_RESET : string := ESC ++ "[0m".

(** The conversions [%zu], [%lu] and [%PRIu64] (unsigned decimal) and [%d]. *)
Definition fmt_u (n : Z) : string := NilZero.string_of_uint (N.to_uint (Z.to_N n)).
Definition fmt_d (n : Z) : string := NilZero.string_of_int (Z.to_int n).

(** ** The campaign handle *)

Module HwCnt.
(** [hfuzz->hwCnts]: six [uint64_t] counters. *)
Record hwcnt_t : Type := Build {
  cpuInstrCnt : Z;
  cpuBranchCnt : Z;
  cpuBtsBlockCnt : Z;
  cpuBtsEdgeCnt : Z;
  cpuIptBlockCnt : Z;
  customCnt : Z
}.
End HwCnt.

Module SanCov.
(** [hfuzz->sanCovCnts]: five [uint64_t] counters. *)
Record sancovcnt_t : Type := Build {
  hitBBCnt : Z;
  totalBBCnt : Z;
  iDsoCnt : Z;
  newBBCnt : Z;
  crashesCnt : Z
}.
End SanCov.

(** Modelled from the spec: the declaration of [honggfuzz_t] (common.h) is
    not part of the sources at hand.  The record has the members display.c
    dereferences, typed after their uses there: [size_t] for what is printed
    with [%zu] or read into a [size_t], [time_t] for [timeStart], [char *]
    for what is printed with [%s], [int] for [pid], a binary64 float for
    [flipRate], [bool] for the two switches and a bit mask for
    [dynFileMethod]. *)
Record honggfuzz_t : Type := Build_honggfuzz {
  mutationsCnt : Z;
  mutationsMax : Z;
  timeStart : Z;
  inputFile : string;
  cmdline_txt : string;
  pid : Z;
  pidCmd : string;
  threadsMax : Z;
  flipRate : float;
  useVerifier : bool;
  fileCnt : Z;
  crashesCnt : Z;
  uniqueCrashesCnt : Z;
  blCrashesCnt : Z;
  verifiedCrashesCnt : Z;
  timeoutedCnt : Z;
  dynFileMethod : Z;
  useSanCov : bool;
  dynamicFileBestSz : Z;
  maxFileSz : Z;
  dynFileIterExpire : Z;
  hwCnts : HwCnt.hwcnt_t;
  sanCovCnts : SanCov.sancovcnt_t
}.

(** Stores to the members that display.c takes the address of. *)
Definition set_mutationsCnt (v : Z) (h : honggfuzz_t) : honggfuzz_t :=
  let '(Build_honggfuzz _ a1 a2 a3 a4 a5 a6 a7 a8 a9 a10 a11 a12 a13 a14 a15 a16 a17 a18 a19 a20 a21 a22) := h in
  Build_honggfuzz v a1 a2 a3 a4 a5 a6 a7 a8 a9 a10 a11 a12 a13 a14 a15 a16 a17 a18 a19 a20 a21 a22.
Definition set_crashesCnt (v : Z) (h : honggfuzz_t) : honggfuzz_t :=
  let '(Build_honggfuzz a0 a1 a2 a3 a4 a5 a6 a7 a8 a9 a10 _ a12 a13 a14 a15 a16 a17 a18 a19 a20 a21 a22) := h in
  Build_honggfuzz a0 a1 a2 a3 a4 a5 a6 a7 a8 a9 a10 v a12 a13 a14 a15 a16 a17 a18 a19 a20 a21 a22.
Definition set_uniqueCrashesCnt (v : Z) (h : honggfuzz_t) : honggfuzz_t :=
  let '(Build_honggfuzz a0 a1 a2 a3 a4 a5 a6 a7 a8 a9 a10 a11 _ a13 a14 a15 a16 a17 a18 a19 a20 a21 a22) := h in
  Build_honggfuzz a0 a1 a2 a3 a4 a5 a6 a7 a8 a9 a10 a11 v a13 a14 a15 a16 a17 a18 a19 a20 a21 a22.
Definition set_blCrashesCnt (v : Z) (h : honggfuzz_t) : honggfuzz_t :=
  let '(Build_honggfuzz a0 a1 a2 a3 a4 a5 a6 a7 a8 a9 a10 a11 a12 _ a14 a15 a16 a17 a18 a19 a20 a21 a22) := h in
  Build_honggfuzz a0 a1 a2 a3 a4 a5 a6 a7 a8 a9 a10 a11 a12 v a14 a15 a16 a17 a18 a19 a20 a21 a22.
Definition set_verifiedCrashesCnt (v : Z) (h : honggfuzz_t) : honggfuzz_t :=
  let '(Build_honggfuzz a0 a1 a2 a3 a4 a5 a6 a7 a8 a9 a10 a11 a12 a13 _ a15 a16 a17 a18 a19 a20 a21 a22) := h in
  Build_honggfuzz a0 a1 a2 a3 a4 a5 a6 a7 a8 a9 a10 a11 a12 a13 v a15 a16 a17 a18 a19 a20 a21 a22.
Definition set_timeoutedCnt (v : Z) (h : honggfuzz_t) : honggfuzz_t :=
  let '(Build_honggfuzz a0 a1 a2 a3 a4 a5 a6 a7 a8 a9 a10 a11 a12 a13 a14 _ a16 a17 a18 a19 a20 a21 a22) := h in
  Build_honggfuzz a0 a1 a2 a3 a4 a5 a6 a7 a8 a9 a10 a11 a12 a13 a14 v a16 a17 a18 a19 a20 a21 a22.
Definition set_dynFileIterExpire (v : Z) (h : honggfuzz_t) : honggfuzz_t :=
  let '(Build_honggfuzz a0 a1 a2 a3 a4 a5 a6 a7 a8 a9 a10 a11 a12 a13 a14 a15 a16 a17 a18 a19 _ a21 a22) := h in
  Build_honggfuzz a0 a1 a2 a3 a4 a5 a6 a7 a8 a9 a10 a11 a12 a13 a14 a15 a16 a17 a18 a19 v a21 a22.
Definition set_hwCnts (v : HwCnt.hwcnt_t) (h : honggfuzz_t) : honggfuzz_t :=
  let '(Build_honggfuzz a0 a1 a2 a3 a4 a5 a6 a7 a8 a9 a10 a11 a12 a13 a14 a15 a16 a17 a18 a19 a20 _ a22) := h in
  Build_honggfuzz a0 a1 a2 a3 a4 a5 a6 a7 a8 a9 a10 a11 a12 a13 a14 a15 a16 a17 a18 a19 a20 v a22.
Definition set_sanCovCnts (v : SanCov.sancovcnt_t) (h : honggfuzz_t) : honggfuzz_t :=
  let '(Build_honggfuzz a0 a1 a2 a3 a4 a5 a6 a7 a8 a9 a10 a11 a12 a13 a14 a15 a16 a17 a18 a19 a20 a21 _) := h in
  Build_honggfuzz a0 a1 a2 a3 a4 a5 a6 a7 a8 a9 a10 a11 a12 a13 a14 a15 a16 a17 a18 a19 a20 a21 v.

Definition set_cpuInstrCnt (v : Z) (c : HwCnt.hwcnt_t) : HwCnt.hwcnt_t :=
  let '(HwCnt.Build _ b c0 d e f) := c in HwCnt.Build v b c0 d e f.
Definition set_cpuBranchCnt (v : Z) (c : HwCnt.hwcnt_t) : HwCnt.hwcnt_t :=
  let '(HwCnt.Build a _ c0 d e f) := c in HwCnt.Build a v c0 d e f.
Definition set_cpuBtsBlockCnt (v : Z) (c : HwCnt.hwcnt_t) : HwCnt.hwcnt_t :=
  let '(HwCnt.Build a b _ d e f) := c in HwCnt.Build a b v d e f.
Definition set_cpuBtsEdgeCnt (v : Z) (c : HwCnt.hwcnt_t) : HwCnt.hwcnt_t :=
  let '(HwCnt.Build a b c0 _ e f) := c in HwCnt.Build a b c0 v e f.
Definition set_cpuIptBlockCnt (v : Z) (c : HwCnt.hwcnt_t) : HwCnt.hwcnt_t :=
  let '(HwCnt.Build a b c0 d _ f) := c in HwCnt.Build a b c0 d v f.
Definition set_customCnt (v : Z) (c : HwCnt.hwcnt_t) : HwCnt.hwcnt_t :=
  let '(HwCnt.Build a b c0 d e _) := c in HwCnt.Build a b c0 d e v.

Definition set_hitBBCnt (v : Z) (c : SanCov.sancovcnt_t) : SanCov.sancovcnt_t :=
  let '(SanCov.Build _ b c0 d e) := c in SanCov.Build v b c0 d e.
Definition set_totalBBCnt (v : Z) (c : SanCov.sancovcnt_t) : SanCov.sancovcnt_t :=
  let '(SanCov.Build a _ c0 d e) := c in SanCov.Build a v c0 d e.
Definition set_iDsoCnt (v : Z) (c : SanCov.sancovcnt_t) : SanCov.sancovcnt_t :=
  let '(SanCov.Build a b _ d e) := c in SanCov.Build a b v d e.
Definition set_newBBCnt (v : Z) (c : SanCov.sancovcnt_t) : SanCov.sancovcnt_t :=
  let '(SanCov.Build a b c0 _ e) := c in SanCov.Build a b c0 v e.
Definition set_sanCov_crashesCnt (v : Z) (c : SanCov.sancovcnt_t) : SanCov.sancovcnt_t :=
  let '(SanCov.Build a b c0 d _) := c in SanCov.Build a b c0 d v.

(** ** Observable effects *)

(** One call [write(fd, buf, count)].  [buf] is the text held by the local
    buffer of [display_put] up to its terminating NUL. *)
Record write_call : Type := sys_write {
  wr_fd : Z;
  wr_buf : string;
  wr_count : Z
}.

(** What a thread can do to the shared [honggfuzz_t]: a plain load
    [hfuzz->member], an atomic read-modify-write
    [__sync_fetch_and_add(&hfuzz->member, v)], or taking and releasing one of
    its mutexes. *)
Inductive mem_event : Type :=
| ev_load (member : string)
| ev_atomic_rmw (member : string)
| ev_lock (mutex : string)
| ev_unlock (mutex : string).

(** The state a call of [display_displayLocked] runs in: the shared handle,
    the function's [static size_t prev_exec_cnt], the calls of [write] made so
    far and the accesses made to the handle so far. *)
Record world : Type := Build_world {
  hfuzz : honggfuzz_t;
  prev_exec_cnt : Z;
  stdout : list write_call;
  trace : list mem_event
}.

(** [static size_t prev_exec_cnt = 0UL;] *)
Definition init_world (h : honggfuzz_t) : world :=
  {| hfuzz := h; prev_exec_cnt := 0; stdout := []; trace := [] |}.

(** Another thread replaces the contents of the shared handle between two
    calls. *)
Definition with_hfuzz (h : honggfuzz_t) (s : world) : world :=
  {| hfuzz := h; prev_exec_cnt := prev_exec_cnt s; stdout := stdout s; trace := trace s |}.

(** ** A state and error monad over [world] *)

(** A computation returns a value and a new state, or nothing when its
    behaviour is undefined. *)
Definition M (A : Type) : Type := world -> option (A * world).

Definition ret {A} (a : A) : M A := fun s => Some (a, s).
Definition bind {A B} (m : M A) (k : A -> M B) : M B :=
  fun s => match m s with
           | Some (a, s') => k a s'
           | None => None
           end.
Definition undefined {A} : M A := fun _ => None.

Declare Scope monad_scope.
Delimit Scope monad_scope with monad.
Notation "x <- m ;; k" := (bind m (fun x => k))
  (at level 61, m at next level, right associativity) : monad_scope.
Notation "m ;; k" := (bind m (fun _ => k))
  (at level 61, right associativity) : monad_scope.
Open Scope monad_scope.

Definition exec {A} (m : M A) (s : world) : option world := option_map snd (m s).

(** [a / b] on unsigned operands: undefined when [b] is zero. *)
Definition udiv (a b : Z) : M Z := if b =? 0 then undefined else ret (a / b).

(** [if (c) { m }] *)
Definition when (c : bool) (m : M unit) : M unit := if c then m else ret tt.
(** [a && b] and [a || b], the right operand evaluated on demand. *)
Definition andM (a b : M bool) : M bool := x <- a ;; if x then b else ret false.
Definition orM (a b : M bool) : M bool := x <- a ;; if x then ret true else b.

(** [hfuzz->member]: a plain load. *)
Definition rd {A} (member : string) (proj : honggfuzz_t -> A) : M A :=
  fun s => Some (proj (hfuzz s),
                 {| hfuzz := hfuzz s; prev_exec_cnt := prev_exec_cnt s; stdout := stdout s;
                    trace := trace s ++ [ev_load member] |}).

(** An integer member whose address is taken. *)
Record lvalue : Type := Build_lvalue {
  lv_name : string;
  lv_bits : Z;
  lv_load : honggfuzz_t -> Z;
  lv_store : Z -> honggfuzz_t -> honggfuzz_t
}.

(** [__sync_fetch_and_add(&hfuzz->member, v)]: the old value is returned and
    old + v, reduced to the width of the member, is stored. *)
Definition __sync_fetch_and_add (lv : lvalue) (v : Z) : M Z :=
  fun s => let old := lv_load lv (hfuzz s) in
           Some (old,
                 {| hfuzz := lv_store lv (wrap (lv_bits lv) (old + v)) (hfuzz s);
                    prev_exec_cnt := prev_exec_cnt s; stdout := stdout s;
                    trace := trace s ++ [ev_atomic_rmw (lv_name lv)] |}).

Definition get_prev_exec_cnt : M Z := fun s => Some (prev_exec_cnt s, s).
Definition set_prev_exec_cnt (v : Z) : M unit :=
  fun s => Some (tt, {| hfuzz := hfuzz s; prev_exec_cnt := v; stdout := stdout s;
                        trace := trace s |}).

(** [write(fd, buf, count)].  Its result is not part of the model:
    [display_put] returns whatever it is. *)
Definition write (fd : Z) (buf : string) (count : Z) : M unit :=
  fun s => Some (tt, {| hfuzz := hfuzz s; prev_exec_cnt := prev_exec_cnt s;
                        stdout := stdout s ++ [sys_write fd buf count]; trace := trace s |}).

(** ** display_put *)

Definition STDOUT_FILENO : Z := 1.

(** [vsnprintf(buf, size, fmt, args)] on the expansion of [fmt] with [args]:
    at most [size - 1] characters are stored, the length of the whole
    expansion is returned, which exceeds what is stored when the expansion
    does not fit. *)
Definition vsnprintf (size : nat) (expansion : string) : string * Z :=
  (substring 0 (size - 1) expansion, Z.of_nat (String.length expansion)).

(** [display_put(fmt, ...)]: the expansion goes into [char buf[1024 * 4]]
    and [write] is asked for as many bytes as [vsnprintf] returned. *)
Definition display_put (expansion : string) : M unit :=
  let (buf, r) := vsnprintf (1024 * 4) expansion in
  if r <=? 0 then ret tt
  else write STDOUT_FILENO buf r.

(** The call of [write] that [display_put] makes for a non-empty expansion. *)
Definition put_call (expansion : string) : write_call :=
  sys_write STDOUT_FILENO (fst (vsnprintf (1024 * 4) expansion))
            (snd (vsnprintf (1024 * 4) expansion)).

(** ** A campaign to run the definitions on *)

Module Sample.
Definition hw : HwCnt.hwcnt_t := HwCnt.Build 11 22 33 44 55 66.
Definition sc : SanCov.sancovcnt_t := SanCov.Build 50 200 3 4 5.

(** A cap of 1000 that the counter has passed, started at second 100, replay
    mode, branch counting (bit 2) and software coverage on, 50 of 200 blocks
    hit. *)
Definition h : honggfuzz_t :=
  Build_honggfuzz 1200 1000 100 "corpus" "/bin/target ___FILE___" 0 "" 4 0%float true 7
                  1 2 3 4 5 2 true 10 20 30 hw sc.

(** The same campaign, fuzzing (flip rate 0.5) with no feedback. *)
Definition h_plain : honggfuzz_t :=
  Build_honggfuzz 1200 1000 100 "corpus" "/bin/target ___FILE___" 0 "" 4 0.5%float true 7
                  1 2 3 4 5 0 false 10 20 30 hw sc.

(** Software coverage counters of 2^63 hit blocks out of 2^63, and of 3 hit
    blocks out of 1. *)
Definition h_huge : honggfuzz_t :=
  set_sanCovCnts (SanCov.Build (2 ^ 63) (2 ^ 63) 3 4 5) h.
Definition h_odd : honggfuzz_t :=
  set_sanCovCnts (SanCov.Build 3 1 3 4 5) h.

(** What common.h defines on the reference target, and a clock. *)
Definition SIZE_WIDTH : positive := 64.
Definition _HF_DYNFILE_NONE : Z := 0.
Definition _HF_DYNFILE_INSTR_COUNT : Z := 1.
Definition _HF_DYNFILE_BRANCH_COUNT : Z := 2.
Definition _HF_DYNFILE_BTS_BLOCK : Z := 8.
Definition _HF_DYNFILE_BTS_EDGE : Z := 16.
Definition _HF_DYNFILE_IPT_BLOCK : Z := 32.
Definition _HF_DYNFILE_CUSTOM : Z := 64.
Definition _HF_MAX_DYNFILE_ITER : Z := 8192.
Definition local_time (fmt : string) (len : nat) (t : Z) : string := "2016-01-01 00:00:00".

(** The same campaign attached to process 4242; with no cap; and with an
    input path of 5000 characters. *)
Definition h_attached : honggfuzz_t :=
  Build_honggfuzz 1200 1000 100 "corpus" "/bin/target ___FILE___" 4242 "/usr/sbin/sshd -D" 4
                  0%float true 7 1 2 3 4 5 2 true 10 20 30 hw sc.
Definition h_nocap : honggfuzz_t :=
  Build_honggfuzz 1200 0 100 "corpus" "/bin/target ___FILE___" 0 "" 4 0%float true 7
                  1 2 3 4 5 2 true 10 20 30 hw sc.
Definition long_path : string := string_of_list_ascii (repeat "a"%char 5000).
Definition h_long : honggfuzz_t :=
  Build_honggfuzz 1200 1000 100 long_path "/bin/target ___FILE___" 0 "" 4 0%float true 7
                  1 2 3 4 5 2 true 10 20 30 hw sc.
End Sample.

(** ** display_displayLocked *)

Section Display.

(** The width in bits of [size_t], [unsigned long] and [uintptr_t] on the
    target (32 on ILP32, 64 on LP64). *)
Variable SIZE_WIDTH : positive.

(** The values of the [dynFileMethod] bits and of the iteration limit are
    defined in common.h. *)
Variable _HF_DYNFILE_NONE : Z.
Variable _HF_DYNFILE_INSTR_COUNT : Z.
Variable _HF_DYNFILE_BRANCH_COUNT : Z.
Variable _HF_DYNFILE_BTS_BLOCK : Z.
Variable _HF_DYNFILE_BTS_EDGE : Z.
Variable _HF_DYNFILE_IPT_BLOCK : Z.
Variable _HF_DYNFILE_CUSTOM : Z.
Variable _HF_MAX_DYNFILE_ITER : Z.

(** [util_getLocalTime(fmt, buf, len, tm)] of util.c, as the text it leaves
    in [buf]. *)
Variable util_getLocalTime : string -> nat -> Z -> string.

Definition to_ulong (x : Z) : Z := wrap (Zpos SIZE_WIDTH) x.
Definition to_uintptr_t (x : Z) : Z := wrap (Zpos SIZE_WIDTH) x.

(** The operands of [__sync_fetch_and_add] in display.c. *)
Definition lv_mutationsCnt : lvalue :=
  Build_lvalue "mutationsCnt" (Zpos SIZE_WIDTH) mutationsCnt set_mutationsCnt.
Definition lv_crashesCnt : lvalue :=
  Build_lvalue "crashesCnt" (Zpos SIZE_WIDTH) crashesCnt set_crashesCnt.
Definition lv_uniqueCrashesCnt : lvalue :=
  Build_lvalue "uniqueCrashesCnt" (Zpos SIZE_WIDTH) uniqueCrashesCnt set_uniqueCrashesCnt.
Definition lv_blCrashesCnt : lvalue :=
  Build_lvalue "blCrashesCnt" (Zpos SIZE_WIDTH) blCrashesCnt set_blCrashesCnt.
Definition lv_verifiedCrashesCnt : lvalue :=
  Build_lvalue "verifiedCrashesCnt" (Zpos SIZE_WIDTH) verifiedCrashesCnt set_verifiedCrashesCnt.
Definition lv_timeoutedCnt : lvalue :=
  Build_lvalue "timeoutedCnt" (Zpos SIZE_WIDTH) timeoutedCnt set_timeoutedCnt.
Definition lv_dynFileIterExpire : lvalue :=
  Build_lvalue "dynFileIterExpire" (Zpos SIZE_WIDTH) dynFileIterExpire set_dynFileIterExpire.

Definition lv_hw (name : string) (get : HwCnt.hwcnt_t -> Z)
    (set : Z -> HwCnt.hwcnt_t -> HwCnt.hwcnt_t) : lvalue :=
  Build_lvalue ("hwCnts." ++ name) 64
    (fun h => get (hwCnts h)) (fun v h => set_hwCnts (set v (hwCnts h)) h).
Definition lv_cpuInstrCnt := lv_hw "cpuInstrCnt" HwCnt.cpuInstrCnt set_cpuInstrCnt.
Definition lv_cpuBranchCnt := lv_hw "cpuBranchCnt" HwCnt.cpuBranchCnt set_cpuBranchCnt.
Definition lv_cpuBtsBlockCnt := lv_hw "cpuBtsBlockCnt" HwCnt.cpuBtsBlockCnt set_cpuBtsBlockCnt.
Definition lv_cpuBtsEdgeCnt := lv_hw "cpuBtsEdgeCnt" HwCnt.cpuBtsEdgeCnt set_cpuBtsEdgeCnt.
Definition lv_cpuIptBlockCnt := lv_hw "cpuIptBlockCnt" HwCnt.cpuIptBlockCnt set_cpuIptBlockCnt.
Definition lv_customCnt := lv_hw "customCnt" HwCnt.customCnt set_customCnt.

Definition lv_sc (name : string) (get : SanCov.sancovcnt_t -> Z)
    (set : Z -> SanCov.sancovcnt_t -> SanCov.sancovcnt_t) : lvalue :=
  Build_lvalue ("sanCovCnts." ++ name) 64
    (fun h => get (sanCovCnts h)) (fun v h => set_sanCovCnts (set v (sanCovCnts h)) h).
Definition lv_hitBBCnt := lv_sc "hitBBCnt" SanCov.hitBBCnt set_hitBBCnt.
Definition lv_totalBBCnt := lv_sc "totalBBCnt" SanCov.totalBBCnt set_totalBBCnt.
Definition lv_iDsoCnt := lv_sc "iDsoCnt" SanCov.iDsoCnt set_iDsoCnt.
Definition lv_newBBCnt := lv_sc "newBBCnt" SanCov.newBBCnt set_newBBCnt.
Definition lv_sanCov_crashesCnt := lv_sc "crashesCnt" SanCov.crashesCnt set_sanCov_crashesCnt.

(** The expansions of the format strings of display.c, one per call of
    [display_put]; [bold v] is [ESC_BOLD "%.." ESC_RESET] with [v] put in. *)
Definition bold (v : string) : string := ESC_BOLD ++ v ++ ESC_RESET.

Definition txt_stat : string :=
  "============================== STAT ==============================" ++ NL.
Definition txt_iterations (curr_exec_cnt : Z) : string :=
  "Iterations: " ++ bold (fmt_u curr_exec_cnt).
Definition txt_out_of (mutationsMax : Z) : string :=
  " (out of: " ++ bold (fmt_u mutationsMax) ++ ")".
Definition txt_start_time (start_time_str : string) (elapsed : Z) : string :=
  "Start time: " ++ bold start_time_str ++ " (" ++ bold (fmt_u elapsed)
  ++ " seconds elapsed)" ++ NL.
Definition txt_input (inputFile : string) : string :=
  "Input file/dir: '" ++ bold inputFile ++ "'" ++ NL.
Definition txt_fuzzed (cmdline_txt : string) : string :=
  "Fuzzed cmd: '" ++ bold cmdline_txt ++ "'" ++ NL.
Definition txt_remote (pid : Z) (pidCmd : string) : string :=
  "Remote cmd [" ++ bold (fmt_d pid) ++ "]: '" ++ bold pidCmd ++ "'" ++ NL.
Definition txt_threads (threadsMax : Z) : string :=
  "Fuzzing threads: " ++ bold (fmt_u threadsMax) ++ NL.
Definition txt_execs (exec_per_sec avg : Z) : string :=
  "Execs per second: " ++ bold (fmt_u exec_per_sec) ++ " (avg: " ++ bold (fmt_u avg)
  ++ ")" ++ NL.
Definition txt_input_files (fileCnt : Z) : string :=
  "Input Files: '" ++ bold (fmt_u fileCnt) ++ "'" ++ NL.
Definition txt_crashes (total unique blacklist verified : Z) : string :=
  "Crashes: " ++ bold (fmt_u total) ++ " (unique: " ++ bold (fmt_u unique)
  ++ ", blacklist: " ++ bold (fmt_u blacklist) ++ ", verified: " ++ bold (fmt_u verified)
  ++ ") " ++ NL.
Definition txt_timeouts (timeouted : Z) : string :=
  "Timeouts: " ++ bold (fmt_u timeouted) ++ NL.
Definition txt_dynfile_size (best max : Z) : string :=
  "Dynamic file size: " ++ bold (fmt_u best) ++ " (max: " ++ bold (fmt_u max) ++ ")" ++ NL.
Definition txt_dynfile_iter (expire max : Z) : string :=
  "Dynamic file max iterations keep for chosen seed (" ++ bold (fmt_u expire)
  ++ "/" ++ bold (fmt_u max) ++ ")" ++ NL.
Definition txt_coverage : string := "Coverage (max):" ++ NL.
Definition txt_instr (n : Z) : string :=
  "  - cpu instructions:      " ++ bold (fmt_u n) ++ NL.
Definition txt_branch (n : Z) : string :=
  "  - cpu branches:          " ++ bold (fmt_u n) ++ NL.
Definition txt_bts_block (n : Z) : string :=
  "  - BTS unique blocks: " ++ bold (fmt_u n) ++ NL.
Definition txt_bts_edge (n : Z) : string :=
  "  - BTS unique edges:   " ++ bold (fmt_u n) ++ NL.
Definition txt_ipt_block (n : Z) : string :=
  "  - PT unique blocks: " ++ bold (fmt_u n) ++ NL.
Definition txt_custom (n : Z) : string :=
  "  - custom counter:        " ++ bold (fmt_u n) ++ NL.
Definition txt_hit_bb (hitBB covPer : Z) : string :=
  "  - total hit #bb:  " ++ bold (fmt_u hitBB) ++ " (coverage " ++ fmt_d covPer ++ "%)" ++ NL.
Definition txt_dso (n : Z) : string :=
  "  - total #dso:     " ++ bold (fmt_u n) ++ " (instrumented only)" ++ NL.
Definition txt_new_bb (n : Z) : string :=
  "  - discovered #bb: " ++ bold (fmt_u n) ++ " (new from input seed)" ++ NL.
Definition txt_sancov_crashes (n : Z) : string :=
  "  - crashes:        " ++ bold (fmt_u n) ++ NL.
Definition txt_logs : string :=
  "============================== LOGS ==============================" ++ NL.

(** [hfuzz->dynFileMethod & bit], as a condition. *)
Definition has_bit (dynFileMethod bit : Z) : bool :=
  negb (Z.land dynFileMethod bit =? 0).

(** One call: [now] is what [time(NULL)] returns. *)
Definition display_displayLocked (now : Z) : M unit :=
  timeStart_ <- rd "timeStart" timeStart ;;
  let elapsed := to_ulong (now - timeStart_) in

  raw_exec_cnt <- __sync_fetch_and_add lv_mutationsCnt 0 ;;
  over <- andM (m <- rd "mutationsMax" mutationsMax ;; ret (m >? 0))
               (m <- rd "mutationsMax" mutationsMax ;; ret (raw_exec_cnt >? m)) ;;
  curr_exec_cnt <- (if over : bool then rd "mutationsMax" mutationsMax
                    else ret raw_exec_cnt) ;;
  prev <- get_prev_exec_cnt ;;
  let exec_per_sec := to_uintptr_t (curr_exec_cnt - prev) in
  set_prev_exec_cnt curr_exec_cnt ;;

  display_put ESC_CLEAR ;;
  display_put txt_stat ;;

  display_put (txt_iterations curr_exec_cnt) ;;
  capped <- (m <- rd "mutationsMax" mutationsMax ;; ret (negb (m =? 0))) ;;
  when capped (m <- rd "mutationsMax" mutationsMax ;; display_put (txt_out_of m)) ;;
  display_put NL ;;

  timeStart_ <- rd "timeStart" timeStart ;;
  let start_time_str := util_getLocalTime "%F %T" 128 timeStart_ in
  display_put (txt_start_time start_time_str elapsed) ;;

  inputFile_ <- rd "inputFile" inputFile ;;
  display_put (txt_input inputFile_) ;;
  cmdline_txt_ <- rd "cmdline_txt" cmdline_txt ;;
  display_put (txt_fuzzed cmdline_txt_) ;;
  attached <- (p <- rd "pid" pid ;; ret (p >? 0)) ;;
  when attached
    (p <- rd "pid" pid ;; c <- rd "pidCmd" pidCmd ;; display_put (txt_remote p c)) ;;

  threadsMax_ <- rd "threadsMax" threadsMax ;;
  display_put (txt_threads threadsMax_) ;;
  avg <- (if negb (elapsed =? 0) then udiv curr_exec_cnt elapsed else ret 0) ;;
  display_put (txt_execs exec_per_sec avg) ;;

  (* If dry run, print also the input file count *)
  dry_run <- andM (f <- rd "flipRate" flipRate ;; ret (PrimFloat.eqb f 0%float))
                  (rd "useVerifier" useVerifier) ;;
  when dry_run (n <- rd "fileCnt" fileCnt ;; display_put (txt_input_files n)) ;;

  crashes <- __sync_fetch_and_add lv_crashesCnt 0 ;;
  unique <- __sync_fetch_and_add lv_uniqueCrashesCnt 0 ;;
  blacklist <- __sync_fetch_and_add lv_blCrashesCnt 0 ;;
  verified <- __sync_fetch_and_add lv_verifiedCrashesCnt 0 ;;
  display_put (txt_crashes crashes unique blacklist verified) ;;
  timeouted <- __sync_fetch_and_add lv_timeoutedCnt 0 ;;
  display_put (txt_timeouts timeouted) ;;

  (* Feedback data sources are enabled. Start with common headers. *)
  feedback <- orM (m <- rd "dynFileMethod" dynFileMethod ;;
                   ret (negb (m =? _HF_DYNFILE_NONE)))
                  (rd "useSanCov" useSanCov) ;;
  when feedback
    (best <- rd "dynamicFileBestSz" dynamicFileBestSz ;;
     max <- rd "maxFileSz" maxFileSz ;;
     display_put (txt_dynfile_size best max) ;;
     expire <- __sync_fetch_and_add lv_dynFileIterExpire 0 ;;
     display_put (txt_dynfile_iter expire _HF_MAX_DYNFILE_ITER) ;;
     display_put txt_coverage) ;;

  (* HW perf specific counters *)
  b <- (m <- rd "dynFileMethod" dynFileMethod ;; ret (has_bit m _HF_DYNFILE_INSTR_COUNT)) ;;
  when b (n <- __sync_fetch_and_add lv_cpuInstrCnt 0 ;; display_put (txt_instr n)) ;;
  b <- (m <- rd "dynFileMethod" dynFileMethod ;; ret (has_bit m _HF_DYNFILE_BRANCH_COUNT)) ;;
  when b (n <- __sync_fetch_and_add lv_cpuBranchCnt 0 ;; display_put (txt_branch n)) ;;
  b <- (m <- rd "dynFileMethod" dynFileMethod ;; ret (has_bit m _HF_DYNFILE_BTS_BLOCK)) ;;
  when b (n <- __sync_fetch_and_add lv_cpuBtsBlockCnt 0 ;; display_put (txt_bts_block n)) ;;
  b <- (m <- rd "dynFileMethod" dynFileMethod ;; ret (has_bit m _HF_DYNFILE_BTS_EDGE)) ;;
  when b (n <- __sync_fetch_and_add lv_cpuBtsEdgeCnt 0 ;; display_put (txt_bts_edge n)) ;;
  b <- (m <- rd "dynFileMethod" dynFileMethod ;; ret (has_bit m _HF_DYNFILE_IPT_BLOCK)) ;;
  when b (n <- __sync_fetch_and_add lv_cpuIptBlockCnt 0 ;; display_put (txt_ipt_block n)) ;;
  b <- (m <- rd "dynFileMethod" dynFileMethod ;; ret (has_bit m _HF_DYNFILE_CUSTOM)) ;;
  when b (n <- __sync_fetch_and_add lv_customCnt 0 ;; display_put (txt_custom n)) ;;

  (* Sanitizer coverage specific counters *)
  sancov <- rd "useSanCov" useSanCov ;;
  when sancov
    (hitBB <- __sync_fetch_and_add lv_hitBBCnt 0 ;;
     totalBB <- __sync_fetch_and_add lv_totalBBCnt 0 ;;
     q <- (if negb (totalBB =? 0) then udiv (to_uint64 (hitBB * 100)) totalBB
           else ret 0) ;;
     let covPer := to_uint8 q in
     display_put (txt_hit_bb hitBB covPer) ;;
     n <- __sync_fetch_and_add lv_iDsoCnt 0 ;;
     display_put (txt_dso n) ;;
     n <- __sync_fetch_and_add lv_newBBCnt 0 ;;
     display_put (txt_new_bb n) ;;
     n <- __sync_fetch_and_add lv_sanCov_crashesCnt 0 ;;
     display_put (txt_sancov_crashes n)) ;;
  display_put txt_logs.

(** [extern void display_display(honggfuzz_t * hfuzz)] *)
Definition display_display (now : Z) : M unit := display_displayLocked now.

(** ** What one call does, in closed form *)

(** The value of [covPer]: the product is reduced to 64 bits, the quotient
    to 8. *)
Definition covPer (hitBB totalBB : Z) : Z :=
  to_uint8 (if negb (totalBB =? 0) then to_uint64 (hitBB * 100) / totalBB else 0).

(** The value of [elapsed ? (curr_exec_cnt / elapsed) : 0]. *)
Definition avg_exec_per_sec (curr_exec_cnt elapsed : Z) : Z :=
  if negb (elapsed =? 0) then curr_exec_cnt / elapsed else 0.

(** The calls of [write] that [display_put] makes for one expansion. *)
Definition puts (expansion : string) : list write_call :=
  if snd (vsnprintf (1024 * 4) expansion) <=? 0 then [] else [put_call expansion].

(** [hfuzz->mutationsMax > 0 && curr_exec_cnt > hfuzz->mutationsMax] *)
Definition over_cap (h : honggfuzz_t) : bool :=
  if mutationsMax h >? 0 then mutationsCnt h >? mutationsMax h else false.

(** The value of [curr_exec_cnt] after the clamping statement. *)
Definition clamped_exec_cnt (h : honggfuzz_t) : Z :=
  if over_cap h then mutationsMax h else mutationsCnt h.

(** [(unsigned long)(time(NULL) - hfuzz->timeStart)] *)
Definition elapsed_secs (now : Z) (h : honggfuzz_t) : Z := to_ulong (now - timeStart h).

(** [hfuzz->flipRate == 0.0L && hfuzz->useVerifier] *)
Definition dry_run (h : honggfuzz_t) : bool :=
  if PrimFloat.eqb (flipRate h) 0%float then useVerifier h else false.

(** [hfuzz->dynFileMethod != _HF_DYNFILE_NONE || hfuzz->useSanCov] *)
Definition feedback (h : honggfuzz_t) : bool :=
  if negb (dynFileMethod h =? _HF_DYNFILE_NONE) then true else useSanCov h.

(** The calls of [write] of one call of [display_displayLocked], in order. *)
Definition frame (now : Z) (h : honggfuzz_t) (prev : Z) : list write_call :=
  puts ESC_CLEAR
  ++ puts txt_stat
  ++ puts (txt_iterations (clamped_exec_cnt h))
  ++ (if negb (mutationsMax h =? 0) then puts (txt_out_of (mutationsMax h)) else [])
  ++ puts NL
  ++ puts (txt_start_time (util_getLocalTime "%F %T" 128 (timeStart h)) (elapsed_secs now h))
  ++ puts (txt_input (inputFile h))
  ++ puts (txt_fuzzed (cmdline_txt h))
  ++ (if pid h >? 0 then puts (txt_remote (pid h) (pidCmd h)) else [])
  ++ puts (txt_threads (threadsMax h))
  ++ puts (txt_execs (to_uintptr_t (clamped_exec_cnt h - prev))
                     (avg_exec_per_sec (clamped_exec_cnt h) (elapsed_secs now h)))
  ++ (if dry_run h then puts (txt_input_files (fileCnt h)) else [])
  ++ puts (txt_crashes (crashesCnt h) (uniqueCrashesCnt h) (blCrashesCnt h)
                       (verifiedCrashesCnt h))
  ++ puts (txt_timeouts (timeoutedCnt h))
  ++ (if feedback h
      then puts (txt_dynfile_size (dynamicFileBestSz h) (maxFileSz h))
           ++ puts (txt_dynfile_iter (dynFileIterExpire h) _HF_MAX_DYNFILE_ITER)
           ++ puts txt_coverage
      else [])
  ++ (if has_bit (dynFileMethod h) _HF_DYNFILE_INSTR_COUNT
      then puts (txt_instr (HwCnt.cpuInstrCnt (hwCnts h))) else [])
  ++ (if has_bit (dynFileMethod h) _HF_DYNFILE_BRANCH_COUNT
      then puts (txt_branch (HwCnt.cpuBranchCnt (hwCnts h))) else [])
  ++ (if has_bit (dynFileMethod h) _HF_DYNFILE_BTS_BLOCK
      then puts (txt_bts_block (HwCnt.cpuBtsBlockCnt (hwCnts h))) else [])
  ++ (if has_bit (dynFileMethod h) _HF_DYNFILE_BTS_EDGE
      then puts (txt_bts_edge (HwCnt.cpuBtsEdgeCnt (hwCnts h))) else [])
  ++ (if has_bit (dynFileMethod h) _HF_DYNFILE_IPT_BLOCK
      then puts (txt_ipt_block (HwCnt.cpuIptBlockCnt (hwCnts h))) else [])
  ++ (if has_bit (dynFileMethod h) _HF_DYNFILE_CUSTOM
      then puts (txt_custom (HwCnt.customCnt (hwCnts h))) else [])
  ++ (if useSanCov h
      then puts (txt_hit_bb (SanCov.hitBBCnt (sanCovCnts h))
                            (covPer (SanCov.hitBBCnt (sanCovCnts h))
                                    (SanCov.totalBBCnt (sanCovCnts h))))
           ++ puts (txt_dso (SanCov.iDsoCnt (sanCovCnts h)))
           ++ puts (txt_new_bb (SanCov.newBBCnt (sanCovCnts h)))
           ++ puts (txt_sancov_crashes (SanCov.crashesCnt (sanCovCnts h)))
      else [])
  ++ puts txt_logs.

(** The accesses to the handle of one call, in the order of the text (the
    arguments of one call of [display_put] from left to right). *)
Definition accesses (h : honggfuzz_t) : list mem_event :=
  [ev_load "timeStart"; ev_atomic_rmw "mutationsCnt"; ev_load "mutationsMax"]
  ++ (if mutationsMax h >? 0 then [ev_load "mutationsMax"] else [])
  ++ (if over_cap h then [ev_load "mutationsMax"] else [])
  ++ [ev_load "mutationsMax"]
  ++ (if negb (mutationsMax h =? 0) then [ev_load "mutationsMax"] else [])
  ++ [ev_load "timeStart"; ev_load "inputFile"; ev_load "cmdline_txt"; ev_load "pid"]
  ++ (if pid h >? 0 then [ev_load "pid"; ev_load "pidCmd"] else [])
  ++ [ev_load "threadsMax"; ev_load "flipRate"]
  ++ (if PrimFloat.eqb (flipRate h) 0%float then [ev_load "useVerifier"] else [])
  ++ (if dry_run h then [ev_load "fileCnt"] else [])
  ++ [ev_atomic_rmw "crashesCnt"; ev_atomic_rmw "uniqueCrashesCnt";
      ev_atomic_rmw "blCrashesCnt"; ev_atomic_rmw "verifiedCrashesCnt";
      ev_atomic_rmw "timeoutedCnt"; ev_load "dynFileMethod"]
  ++ (if negb (dynFileMethod h =? _HF_DYNFILE_NONE) then [] else [ev_load "useSanCov"])
  ++ (if feedback h
      then [ev_load "dynamicFileBestSz"; ev_load "maxFileSz";
            ev_atomic_rmw "dynFileIterExpire"]
      else [])
  ++ [ev_load "dynFileMethod"]
  ++ (if has_bit (dynFileMethod h) _HF_DYNFILE_INSTR_COUNT
      then [ev_atomic_rmw "hwCnts.cpuInstrCnt"] else [])
  ++ [ev_load "dynFileMethod"]
  ++ (if has_bit (dynFileMethod h) _HF_DYNFILE_BRANCH_COUNT
      then [ev_atomic_rmw "hwCnts.cpuBranchCnt"] else [])
  ++ [ev_load "dynFileMethod"]
  ++ (if has_bit (dynFileMethod h) _HF_DYNFILE_BTS_BLOCK
      then [ev_atomic_rmw "hwCnts.cpuBtsBlockCnt"] else [])
  ++ [ev_load "dynFileMethod"]
  ++ (if has_bit (dynFileMethod h) _HF_DYNFILE_BTS_EDGE
      then [ev_atomic_rmw "hwCnts.cpuBtsEdgeCnt"] else [])
  ++ [ev_load "dynFileMethod"]
  ++ (if has_bit (dynFileMethod h) _HF_DYNFILE_IPT_BLOCK
      then [ev_atomic_rmw "hwCnts.cpuIptBlockCnt"] else [])
  ++ [ev_load "dynFileMethod"]
  ++ (if has_bit (dynFileMethod h) _HF_DYNFILE_CUSTOM
      then [ev_atomic_rmw "hwCnts.customCnt"] else [])
  ++ [ev_load "useSanCov"]
  ++ (if useSanCov h
      then [ev_atomic_rmw "sanCovCnts.hitBBCnt"; ev_atomic_rmw "sanCovCnts.totalBBCnt";
            ev_atomic_rmw "sanCovCnts.iDsoCnt"; ev_atomic_rmw "sanCovCnts.newBBCnt";
            ev_atomic_rmw "sanCovCnts.crashesCnt"]
      else []).

(** The operands of [__sync_fetch_and_add] in display.c. *)
Definition atomic_operands : list lvalue :=
  [lv_mutationsCnt; lv_crashesCnt; lv_uniqueCrashesCnt; lv_blCrashesCnt;
   lv_verifiedCrashesCnt; lv_timeoutedCnt; lv_dynFileIterExpire;
   lv_cpuInstrCnt; lv_cpuBranchCnt; lv_cpuBtsBlockCnt; lv_cpuBtsEdgeCnt;
   lv_cpuIptBlockCnt; lv_customCnt;
   lv_hitBBCnt; lv_totalBBCnt; lv_iDsoCnt; lv_newBBCnt; lv_sanCov_crashesCnt].

(** The handle holds values of its members' types: every counter fits its
    width, and so does the cap. *)
Definition wf_hfuzz (h : honggfuzz_t) : Prop :=
  Forall (fun lv => in_range (lv_bits lv) (lv_load lv h)) atomic_operands
  /\ in_range (Zpos SIZE_WIDTH) (mutationsMax h).

Definition wf_world (s : world) : Prop :=
  wf_hfuzz (hfuzz s) /\ in_range (Zpos SIZE_WIDTH) (prev_exec_cnt s).

(** [m], run on the handle [h] with [prev_exec_cnt = p], returns [a], leaves
    the handle as it is, leaves [p'] in [prev_exec_cnt], and appends [ws] to
    the calls of [write] and [es] to the accesses. *)
Definition yields {A} (h : honggfuzz_t) (p : Z) (m : M A) (a : A) (p' : Z)
    (ws : list write_call) (es : list mem_event) : Prop :=
  forall o t, m (Build_world h p o t) = Some (a, Build_world h p' (o ++ ws) (t ++ es)).

(** ** Predicates on what a call writes and accesses *)

Definition nonempty (x : string) : bool :=
  match x with EmptyString => false | String _ _ => true end.

(** A call of [write] whose text starts with the label of the input-file
    count, or with the clear-and-home sequence. *)
Definition is_input_files (w : write_call) : bool := prefix "Input Files: '" (wr_buf w).
Definition clears (w : write_call) : bool := prefix ESC_CLEAR (wr_buf w).

(** The members that the specification counts among the counters updated by
    the worker threads while a frame is rendered: iterations, crashes,
    timeouts, the size and the expiry of the dynamic file, hardware and
    software coverage. *)
Definition shared_counters : list string :=
  ["mutationsCnt"; "crashesCnt"; "uniqueCrashesCnt"; "blCrashesCnt"; "verifiedCrashesCnt";
   "timeoutedCnt"; "dynamicFileBestSz"; "dynFileIterExpire";
   "hwCnts.cpuInstrCnt"; "hwCnts.cpuBranchCnt"; "hwCnts.cpuBtsBlockCnt";
   "hwCnts.cpuBtsEdgeCnt"; "hwCnts.cpuIptBlockCnt"; "hwCnts.customCnt";
   "sanCovCnts.hitBBCnt"; "sanCovCnts.totalBBCnt"; "sanCovCnts.iDsoCnt";
   "sanCovCnts.newBBCnt"; "sanCovCnts.crashesCnt"].

(** The same without the size of the dynamic file. *)
Definition counters_read_atomically : list string :=
  filter (fun m => negb (String.eqb m "dynamicFileBestSz")) shared_counters.

Definition mentions (counters : list string) (member : string) : bool :=
  existsb (String.eqb member) counters.

(** An access that respects "the members of [counters] are read with the
    atomic primitive only and no mutex is taken": a plain load of another
    member, or an atomic access to one of [counters]. *)
Definition lock_free_access (counters : list string) (e : mem_event) : bool :=
  match e with
  | ev_load member => negb (mentions counters member)
  | ev_atomic_rmw member => mentions counters member
  | ev_lock _ | ev_unlock _ => false
  end.

(** A call of [write] whose text starts with [label]. *)
Definition starts_with (label : string) (w : write_call) : bool := prefix label (wr_buf w).

(** The line [line], labelled [label], is among the writes [ws] exactly when
    [c] holds, and no write of [ws] starts with [label] otherwise. *)
Definition shown_exactly_when (ws : list write_call) (label line : string) (c : bool) : Prop :=
  (In (put_call line) ws <-> c = true)
  /\ ((exists w, In w ws /\ starts_with label w = true) <-> c = true).

(** A plain load of [member]; an atomic access to [member]. *)
Definition loads (member : string) (e : mem_event) : bool :=
  match e with
  | ev_load m => String.eqb m member
  | _ => false
  end.
Definition bumps (member : string) (e : mem_event) : bool :=
  match e with
  | ev_atomic_rmw m => String.eqb m member
  | _ => false
  end.

(** ** Rules for [yields] *)

Lemma yields_ret {A} h p (a : A) : yields h p (ret a) a p [] [].
Proof. intros o t. unfold ret. now rewrite !app_nil_r. Qed.

Lemma yields_bind {A B} h p (m : M A) (k : A -> M B) a p1 ws1 es1 b p2 ws2 es2 ws es :
  yields h p m a p1 ws1 es1 ->
  ws = ws1 ++ ws2 -> es = es1 ++ es2 ->
  yields h p1 (k a) b p2 ws2 es2 ->
  yields h p (bind m k) b p2 ws es.
Proof.
  intros Hm -> -> Hk o t. unfold bind. rewrite Hm, Hk.
  now rewrite !app_assoc.
Qed.

Lemma yields_bind_quiet {A B} h p (m : M A) (k : A -> M B) a p1 ws1 es b p2 ws2 ws :
  yields h p m a p1 ws1 es ->
  ws = ws1 ++ ws2 ->
  yields h p1 (k a) b p2 ws2 [] ->
  yields h p (bind m k) b p2 ws es.
Proof.
  intros Hm -> Hk. eapply yields_bind; [exact Hm | reflexivity | | exact Hk].
  now rewrite app_nil_r.
Qed.

Lemma yields_if {A} h p (c : bool) (m1 m2 : M A) a1 a2 p' ws es1 es2 :
  yields h p m1 a1 p' ws es1 ->
  yields h p m2 a2 p' ws es2 ->
  yields h p (if c then m1 else m2) (if c then a1 else a2) p' ws
         (if c then es1 else es2).
Proof. now destruct c. Qed.

Lemma yields_when h p (c : bool) (m : M unit) ws es :
  yields h p m tt p ws es ->
  yields h p (when c m) tt p (if c then ws else []) (if c then es else []).
Proof.
  intros Hm. unfold when. destruct c; [exact Hm | apply yields_ret].
Qed.

Lemma yields_andM h p (a b : M bool) va vb es1 es2 :
  yields h p a va p [] es1 ->
  yields h p b vb p [] es2 ->
  yields h p (andM a b) (if va then vb else false) p []
         (es1 ++ if va then es2 else []).
Proof.
  intros Ha Hb. unfold andM.
  eapply yields_bind; [exact Ha | reflexivity | reflexivity |].
  destruct va; [exact Hb | apply yields_ret].
Qed.

Lemma yields_orM h p (a b : M bool) va vb es1 es2 :
  yields h p a va p [] es1 ->
  yields h p b vb p [] es2 ->
  yields h p (orM a b) (if va then true else vb) p []
         (es1 ++ if va then [] else es2).
Proof.
  intros Ha Hb. unfold orM.
  eapply yields_bind; [exact Ha | reflexivity | reflexivity |].
  destruct va; [apply yields_ret | exact Hb].
Qed.

Lemma yields_guarded_div h p a b :
  yields h p (if negb (b =? 0) then udiv a b else ret 0)
         (if negb (b =? 0) then a / b else 0) p [] [].
Proof.
  unfold udiv. destruct (b =? 0); cbn [negb]; apply yields_ret.
Qed.

Lemma yields_rd {A} h p member (proj : honggfuzz_t -> A) :
  yields h p (rd member proj) (proj h) p [] [ev_load member].
Proof. intros o t. unfold rd. cbn. now rewrite app_nil_r. Qed.

Lemma yields_get_prev h p : yields h p get_prev_exec_cnt p p [] [].
Proof. intros o t. unfold get_prev_exec_cnt. cbn. now rewrite !app_nil_r. Qed.

Lemma yields_set_prev h p v : yields h p (set_prev_exec_cnt v) tt v [] [].
Proof. intros o t. unfold set_prev_exec_cnt. cbn. now rewrite !app_nil_r. Qed.

Lemma yields_put h p x : yields h p (display_put x) tt p (puts x) [].
Proof.
  intros o t. unfold display_put, puts, put_call.
  destruct (vsnprintf (1024 * 4) x) as [buf r] eqn:E. cbn [fst snd].
  destruct (r <=? 0); unfold ret, write; cbn; now rewrite !app_nil_r.
Qed.

(** Adding zero to a counter that fits its width stores what was there. *)
Lemma wrap_id bits x : in_range bits x -> wrap bits (x + 0) = x.
Proof.
  unfold in_range, wrap. intros H. rewrite Z.add_0_r. now apply Z.mod_small.
Qed.

(** Storing into a member what it holds changes nothing. *)
Lemma store_load lv h : In lv atomic_operands -> lv_store lv (lv_load lv h) h = h.
Proof.
  unfold atomic_operands. intros H.
  destruct h as [? ? ? ? ? ? ? ? ? ? ? ? ? ? ? ? ? ? ? ? ? hw sc].
  destruct hw, sc.
  repeat (destruct H as [<- | H]; [reflexivity |]). destruct H.
Qed.

Lemma yields_faa h p lv :
  wf_hfuzz h -> In lv atomic_operands ->
  yields h p (__sync_fetch_and_add lv 0) (lv_load lv h) p [] [ev_atomic_rmw (lv_name lv)].
Proof.
  intros [Hwf _] Hin o t. unfold __sync_fetch_and_add. cbn [hfuzz prev_exec_cnt stdout trace].
  rewrite Forall_forall in Hwf.
  rewrite wrap_id by now apply Hwf.
  rewrite store_load by assumption. now rewrite app_nil_r.
Qed.

(** One step of a run: the rule of the statement at hand. *)
Ltac yields_prim Hwf :=
  lazymatch goal with
  | |- yields _ _ (ret _) _ _ _ _ => apply yields_ret
  | |- yields _ _ (rd _ _) _ _ _ _ => apply yields_rd
  | |- yields _ _ get_prev_exec_cnt _ _ _ _ => apply yields_get_prev
  | |- yields _ _ (set_prev_exec_cnt _) _ _ _ _ => apply yields_set_prev
  | |- yields _ _ (display_put _) _ _ _ _ => apply yields_put
  | |- yields _ _ (__sync_fetch_and_add _ 0) _ _ _ _ =>
      apply yields_faa; [exact Hwf | unfold atomic_operands; cbn; tauto]
  | |- yields _ _ (if negb (_ =? 0) then udiv _ _ else ret 0) _ _ _ _ =>
      apply yields_guarded_div
  | |- yields _ _ (andM _ _) _ _ _ _ => eapply yields_andM; yields_prim Hwf
  | |- yields _ _ (orM _ _) _ _ _ _ => eapply yields_orM; yields_prim Hwf
  | |- yields _ _ (when _ _) _ _ _ _ => eapply yields_when; yields_prim Hwf
  | |- yields _ _ (if _ then _ else _) _ _ _ _ => eapply yields_if; yields_prim Hwf
  | |- yields _ _ (bind _ _) _ _ _ _ =>
      first
        [ eapply yields_bind;
          [yields_prim Hwf | reflexivity | reflexivity | cbv beta; yields_prim Hwf]
        | eapply yields_bind_quiet;
          [yields_prim Hwf | reflexivity | cbv beta; yields_prim Hwf] ]
  end.

(** The whole of one call. *)
Lemma display_displayLocked_yields now h p :
  wf_hfuzz h ->
  yields h p (display_displayLocked now) tt (clamped_exec_cnt h) (frame now h p) (accesses h).
Proof.
  intros Hwf. unfold display_displayLocked, frame, accesses.
  yields_prim Hwf.
Qed.

Lemma exec_display now s :
  wf_hfuzz (hfuzz s) ->
  exec (display_displayLocked now) s =
  Some (Build_world (hfuzz s) (clamped_exec_cnt (hfuzz s))
          (stdout s ++ frame now (hfuzz s) (prev_exec_cnt s))
          (trace s ++ accesses (hfuzz s))).
Proof.
  intros Hwf. destruct s as [h p o t]. unfold exec. cbn [hfuzz prev_exec_cnt stdout trace] in *.
  now rewrite (display_displayLocked_yields now h p Hwf o t).
Qed.

(** ** Facts about the closed forms *)

Lemma puts_nonempty c x : puts (String c x) = [put_call (String c x)].
Proof.
  unfold puts, vsnprintf. cbn [snd String.length].
  destruct (Z.leb_spec (Z.of_nat (S (String.length x))) 0) as [H | H]; [lia | reflexivity].
Qed.

Lemma puts_one x : nonempty x = true -> puts x = [put_call x].
Proof. destruct x; [discriminate | intros _; apply puts_nonempty]. Qed.

Lemma in_puts x : nonempty x = true -> In (put_call x) (puts x).
Proof. intros H. rewrite (puts_one x H). now left. Qed.

Lemma Forall_puts (P : write_call -> Prop) x : P (put_call x) -> Forall P (puts x).
Proof.
  intros H. unfold puts. destruct (_ <=? 0); constructor; [exact H | constructor].
Qed.

Lemma prefix_substring p : forall n x,
  (String.length p <= n)%nat -> prefix p (substring 0 n x) = prefix p x.
Proof.
  induction p as [| c p IH]; intros n x Hn.
  - now destruct (substring 0 n x), x.
  - cbn [String.length] in Hn. destruct n as [| n]; [lia |].
    destruct x as [| d x]; [reflexivity |].
    cbn [substring prefix]. destruct (ascii_dec c d); [apply IH; lia | reflexivity].
Qed.

(** What a call of [write] made by [display_put] starts with. *)
Lemma prefix_put_call p x :
  (String.length p <= 4095)%nat -> prefix p (wr_buf (put_call x)) = prefix p x.
Proof.
  intros H. unfold put_call, vsnprintf. cbn [wr_buf fst].
  apply prefix_substring. change (1024 * 4 - 1)%nat with 4095%nat. exact H.
Qed.

Lemma clamped_at_cap h :
  0 < mutationsMax h -> mutationsMax h <= mutationsCnt h ->
  clamped_exec_cnt h = mutationsMax h.
Proof.
  intros H1 H2. unfold clamped_exec_cnt, over_cap.
  destruct (Z.gtb_spec (mutationsMax h) 0); [| lia].
  destruct (Z.gtb_spec (mutationsCnt h) (mutationsMax h)); [reflexivity | lia].
Qed.

Lemma wf_mutationsCnt h : wf_hfuzz h -> in_range (Zpos SIZE_WIDTH) (mutationsCnt h).
Proof.
  intros [H _]. rewrite Forall_forall in H.
  apply (H lv_mutationsCnt). unfold atomic_operands. now left.
Qed.

Lemma clamped_in_range h : wf_hfuzz h -> in_range (Zpos SIZE_WIDTH) (clamped_exec_cnt h).
Proof.
  intros Hwf. unfold clamped_exec_cnt.
  destruct (over_cap h); [apply Hwf | now apply wf_mutationsCnt].
Qed.

(** Finding the line of a given expansion in a frame. *)
Ltac in_frame :=
  first
    [ apply in_puts; reflexivity
    | apply in_or_app; left; in_frame
    | apply in_or_app; right; in_frame ].

Lemma execs_in_frame now h p :
  In (put_call (txt_execs (to_uintptr_t (clamped_exec_cnt h - p))
                          (avg_exec_per_sec (clamped_exec_cnt h) (elapsed_secs now h))))
     (frame now h p).
Proof. unfold frame. in_frame. Qed.

Lemma iterations_in_frame now h p :
  nth_error (frame now h p) 2 = Some (put_call (txt_iterations (clamped_exec_cnt h))).
Proof.
  unfold frame.
  rewrite (puts_one ESC_CLEAR), (puts_one txt_stat), (puts_one (txt_iterations _))
    by reflexivity.
  reflexivity.
Qed.

(** ** The claims about one call *)

(** C1: when a positive cap is configured and the raw counter read from the
    handle exceeds it, the count that is displayed (the third write of the
    frame) and the count the rate is computed from (the rate line and the
    stored previous count) are the cap; the counter in the handle keeps its
    value. *)
Theorem iteration_count_clamped_to_cap now s :
  wf_hfuzz (hfuzz s) ->
  0 < mutationsMax (hfuzz s) ->
  mutationsMax (hfuzz s) < mutationsCnt (hfuzz s) ->
  let cap := mutationsMax (hfuzz s) in
  exists s' ws,
    exec (display_displayLocked now) s = Some s'
    /\ stdout s' = stdout s ++ ws
    /\ nth_error ws 2 = Some (put_call (txt_iterations cap))
    /\ In (put_call (txt_execs (to_uintptr_t (cap - prev_exec_cnt s))
                               (avg_exec_per_sec cap (elapsed_secs now (hfuzz s))))) ws
    /\ prev_exec_cnt s' = cap
    /\ mutationsCnt (hfuzz s') = mutationsCnt (hfuzz s).
Proof.
  intros Hwf Hpos Hover cap.
  assert (Hc : clamped_exec_cnt (hfuzz s) = cap) by (apply clamped_at_cap; lia).
  exists (Build_world (hfuzz s) (clamped_exec_cnt (hfuzz s))
            (stdout s ++ frame now (hfuzz s) (prev_exec_cnt s))
            (trace s ++ accesses (hfuzz s))),
         (frame now (hfuzz s) (prev_exec_cnt s)).
  split; [now apply exec_display |].
  cbn [hfuzz prev_exec_cnt stdout]. rewrite <- Hc.
  split; [reflexivity |].
  split; [apply iterations_in_frame |].
  split; [apply execs_in_frame |].
  split; reflexivity.
Qed.

(** C2: the rate line carries the clamped count minus the stored previous
    count, computed in [uintptr_t]; this is their difference whenever the
    previous count does not exceed the clamped one, and the clamped count
    itself when the previous count is zero, as it is initially.  The stored
    previous count becomes the clamped count, whatever the handle holds. *)
Theorem interval_rate_and_stored_count now s :
  wf_world s ->
  let curr := clamped_exec_cnt (hfuzz s) in
  let prev := prev_exec_cnt s in
  exists s' ws rate,
    exec (display_displayLocked now) s = Some s'
    /\ stdout s' = stdout s ++ ws
    /\ In (put_call (txt_execs rate (avg_exec_per_sec curr (elapsed_secs now (hfuzz s))))) ws
    /\ rate = to_uintptr_t (curr - prev)
    /\ (prev <= curr -> rate = curr - prev)
    /\ (prev = 0 -> rate = curr)
    /\ prev_exec_cnt (init_world (hfuzz s)) = 0
    /\ prev_exec_cnt s' = curr.
Proof.
  intros [Hwf Hprev] curr prev.
  pose proof (clamped_in_range _ Hwf) as Hcurr. fold curr in Hcurr.
  unfold in_range in Hprev, Hcurr. fold prev in Hprev.
  exists (Build_world (hfuzz s) curr (stdout s ++ frame now (hfuzz s) prev)
            (trace s ++ accesses (hfuzz s))),
         (frame now (hfuzz s) prev), (to_uintptr_t (curr - prev)).
  split; [now apply exec_display |].
  cbn [hfuzz prev_exec_cnt stdout init_world].
  split; [reflexivity |].
  split; [apply execs_in_frame |].
  split; [reflexivity |].
  split.
  { intros Hle. unfold to_uintptr_t, wrap. apply Z.mod_small. lia. }
  split.
  { intros H0. unfold to_uintptr_t, wrap. rewrite H0, Z.sub_0_r. apply Z.mod_small. lia. }
  split; reflexivity.
Qed.

(** C6: the average shown on the rate line is 0 when the elapsed seconds are
    0 and the quotient of the clamped count by the elapsed seconds, rounded
    down, otherwise; the call returns in both cases. *)
Theorem average_rate_guarded now s :
  wf_hfuzz (hfuzz s) ->
  let curr := clamped_exec_cnt (hfuzz s) in
  let elapsed := elapsed_secs now (hfuzz s) in
  exists s' ws avg,
    exec (display_displayLocked now) s = Some s'
    /\ stdout s' = stdout s ++ ws
    /\ In (put_call (txt_execs (to_uintptr_t (curr - prev_exec_cnt s)) avg)) ws
    /\ (elapsed = 0 -> avg = 0)
    /\ (elapsed <> 0 -> avg = curr / elapsed /\ elapsed * avg <= curr < elapsed * (avg + 1)).
Proof.
  intros Hwf curr elapsed.
  exists (Build_world (hfuzz s) curr (stdout s ++ frame now (hfuzz s) (prev_exec_cnt s))
            (trace s ++ accesses (hfuzz s))),
         (frame now (hfuzz s) (prev_exec_cnt s)), (avg_exec_per_sec curr elapsed).
  split; [now apply exec_display |].
  cbn [stdout].
  split; [reflexivity |]. split; [apply execs_in_frame |].
  unfold avg_exec_per_sec. split.
  - intros ->. reflexivity.
  - intros Hne. destruct (Z.eqb_spec elapsed 0) as [| _]; [contradiction |]. cbn [negb].
    split; [reflexivity |].
    assert (0 < elapsed).
    { assert (0 <= elapsed); [| lia]. unfold elapsed, elapsed_secs, to_ulong, wrap.
      apply Z.mod_pos_bound. now apply Z.pow_pos_nonneg. }
    pose proof (Z.mul_div_le curr elapsed). pose proof (Z.mul_succ_div_gt curr elapsed).
    lia.
Qed.

(** C8: a call leaves every member of the handle as it was; what it changes
    is its own stored previous count. *)
Theorem handle_not_modified now s :
  wf_hfuzz (hfuzz s) ->
  exists s',
    exec (display_displayLocked now) s = Some s'
    /\ hfuzz s' = hfuzz s
    /\ prev_exec_cnt s' = clamped_exec_cnt (hfuzz s).
Proof.
  intros Hwf. eexists. split; [now apply exec_display |].
  split; reflexivity.
Qed.

(** C9: with a positive cap and the raw counter at or above it at two
    consecutive calls, the second call shows a rate of 0, whatever the
    workers stored in the handle in between. *)
Theorem rate_zero_at_cap now1 now2 s h2 :
  wf_hfuzz (hfuzz s) -> wf_hfuzz h2 ->
  0 < mutationsMax (hfuzz s) ->
  mutationsMax h2 = mutationsMax (hfuzz s) ->
  mutationsMax (hfuzz s) <= mutationsCnt (hfuzz s) ->
  mutationsMax h2 <= mutationsCnt h2 ->
  exists s1 s2 ws,
    exec (display_displayLocked now1) s = Some s1
    /\ exec (display_displayLocked now2) (with_hfuzz h2 s1) = Some s2
    /\ stdout s2 = stdout s1 ++ ws
    /\ In (put_call (txt_execs 0 (avg_exec_per_sec (mutationsMax h2) (elapsed_secs now2 h2))))
          ws.
Proof.
  intros Hwf Hwf2 Hpos Hcap Hge1 Hge2.
  eexists. eexists. exists (frame now2 h2 (clamped_exec_cnt (hfuzz s))).
  split; [now apply exec_display |].
  split; [apply exec_display; exact Hwf2 |].
  cbn [stdout with_hfuzz hfuzz prev_exec_cnt]. split; [reflexivity |].
  pose proof (execs_in_frame now2 h2 (clamped_exec_cnt (hfuzz s))) as Hin.
  rewrite (clamped_at_cap h2) in Hin by lia.
  rewrite (clamped_at_cap (hfuzz s)) in Hin |- * by assumption.
  rewrite Hcap, Z.sub_diag in Hin.
  unfold to_uintptr_t, wrap in Hin. rewrite Zmod_0_l in Hin.
  rewrite Hcap. exact Hin.
Qed.

(** C10: when the clamped count is below the stored previous count, the rate
    shown is their difference modulo 2^w, that is 2^w less the shortfall: a
    positive number. *)
Theorem rate_wraps_around now s :
  wf_world s ->
  clamped_exec_cnt (hfuzz s) < prev_exec_cnt s ->
  let curr := clamped_exec_cnt (hfuzz s) in
  let prev := prev_exec_cnt s in
  exists s' ws rate,
    exec (display_displayLocked now) s = Some s'
    /\ stdout s' = stdout s ++ ws
    /\ In (put_call (txt_execs rate (avg_exec_per_sec curr (elapsed_secs now (hfuzz s))))) ws
    /\ rate = (curr - prev) mod 2 ^ Zpos SIZE_WIDTH
    /\ rate = 2 ^ Zpos SIZE_WIDTH - (prev - curr)
    /\ 0 < rate < 2 ^ Zpos SIZE_WIDTH.
Proof.
  intros [Hwf Hprev] Hlt curr prev.
  pose proof (clamped_in_range _ Hwf) as Hcurr. fold curr in Hcurr, Hlt.
  unfold in_range in Hprev, Hcurr. fold prev in Hprev, Hlt.
  assert (Hrate : (curr - prev) mod 2 ^ Zpos SIZE_WIDTH = 2 ^ Zpos SIZE_WIDTH - (prev - curr)).
  { symmetry. apply (Z.mod_unique _ _ (-1)); lia. }
  exists (Build_world (hfuzz s) curr (stdout s ++ frame now (hfuzz s) prev)
            (trace s ++ accesses (hfuzz s))),
         (frame now (hfuzz s) prev), (to_uintptr_t (curr - prev)).
  split; [now apply exec_display |].
  cbn [stdout].
  split; [reflexivity |]. split; [apply execs_in_frame |].
  unfold to_uintptr_t, wrap. rewrite Hrate.
  split; [reflexivity |]. split; [reflexivity |]. lia.
Qed.

Lemma is_input_files_put_call x : is_input_files (put_call x) = prefix "Input Files: '" x.
Proof. unfold is_input_files. apply prefix_put_call. apply Nat.leb_le. reflexivity. Qed.

Lemma clears_put_call x : clears (put_call x) = prefix ESC_CLEAR x.
Proof. unfold clears. apply prefix_put_call. apply Nat.leb_le. reflexivity. Qed.

(** A property of every call of [write] of a frame, segment by segment. *)
Ltac forall_frame tac :=
  repeat (apply Forall_app; split);
  repeat match goal with
         | |- Forall _ (if ?c then _ else _) => destruct c
         end;
  repeat (apply Forall_app; split);
  first [ apply Forall_nil | apply Forall_puts; tac ].

Lemma frame_without_input_files now h p :
  dry_run h = false -> Forall (fun w => is_input_files w = false) (frame now h p).
Proof.
  intros H. unfold frame. rewrite H. cbv iota.
  forall_frame ltac:(rewrite is_input_files_put_call; reflexivity).
Qed.

Lemma dry_run_true h :
  dry_run h = true <-> PrimFloat.eqb (flipRate h) 0%float = true /\ useVerifier h = true.
Proof.
  unfold dry_run. destruct (PrimFloat.eqb (flipRate h) 0%float).
  - tauto.
  - split; [discriminate | intros [H _]; discriminate].
Qed.

(** C7: the line of the input-file count is among the writes of a call
    exactly when the flip rate equals 0 and the verifier is on; otherwise no
    write of the call starts with its label. *)
Theorem input_files_line_iff_dry_run now s :
  wf_hfuzz (hfuzz s) ->
  let shown := PrimFloat.eqb (flipRate (hfuzz s)) 0%float = true
               /\ useVerifier (hfuzz s) = true in
  exists s' ws,
    exec (display_displayLocked now) s = Some s'
    /\ stdout s' = stdout s ++ ws
    /\ (In (put_call (txt_input_files (fileCnt (hfuzz s)))) ws <-> shown)
    /\ ((exists w, In w ws /\ is_input_files w = true) <-> shown).
Proof.
  intros Hwf shown.
  exists (Build_world (hfuzz s) (clamped_exec_cnt (hfuzz s))
            (stdout s ++ frame now (hfuzz s) (prev_exec_cnt s))
            (trace s ++ accesses (hfuzz s))),
         (frame now (hfuzz s) (prev_exec_cnt s)).
  split; [now apply exec_display |].
  split; [reflexivity |].
  assert (Hline : is_input_files (put_call (txt_input_files (fileCnt (hfuzz s)))) = true)
    by (rewrite is_input_files_put_call; reflexivity).
  assert (Hex : (exists w, In w (frame now (hfuzz s) (prev_exec_cnt s))
                           /\ is_input_files w = true) -> shown).
  { intros [w [Hin Hw]]. apply dry_run_true.
    destruct (dry_run (hfuzz s)) eqn:Hd; [reflexivity |].
    pose proof (frame_without_input_files now _ (prev_exec_cnt s) Hd) as Hall.
    rewrite Forall_forall in Hall. rewrite (Hall w Hin) in Hw. discriminate. }
  assert (Hin : shown -> In (put_call (txt_input_files (fileCnt (hfuzz s))))
                            (frame now (hfuzz s) (prev_exec_cnt s))).
  { intros Hs. apply dry_run_true in Hs. unfold frame. rewrite Hs. cbv iota. in_frame. }
  split; split.
  - intros H. apply Hex. eauto.
  - exact Hin.
  - exact Hex.
  - intros H. eauto.
Qed.

Lemma frame_starts_with_clear now h p :
  exists rest,
    frame now h p = sys_write STDOUT_FILENO ESC_CLEAR 7 :: rest
    /\ (11 <= List.length rest)%nat
    /\ Forall (fun w => clears w = false) rest.
Proof.
  unfold frame. rewrite (puts_one ESC_CLEAR) by reflexivity.
  eexists. split; [reflexivity |]. split.
  - rewrite !puts_one by reflexivity. rewrite !length_app. cbn [List.length]. lia.
  - forall_frame ltac:(rewrite clears_put_call; reflexivity).
Qed.

Lemma frame_to_stdout now h p : Forall (fun w => wr_fd w = STDOUT_FILENO) (frame now h p).
Proof. unfold frame. forall_frame reflexivity. Qed.

(** C3, as the code has it: a call writes the clear-and-home sequence once,
    in a write of its own that opens the frame, and then the report in
    further writes to standard output, one for each call of [display_put]: at
    least eleven more, none of which starts with the clear sequence. *)
Theorem frame_is_written_piecewise now s :
  wf_hfuzz (hfuzz s) ->
  exists s' rest,
    exec (display_displayLocked now) s = Some s'
    /\ stdout s' = stdout s ++ sys_write STDOUT_FILENO ESC_CLEAR 7 :: rest
    /\ (11 <= List.length rest)%nat
    /\ Forall (fun w => wr_fd w = STDOUT_FILENO /\ clears w = false) rest.
Proof.
  intros Hwf.
  destruct (frame_starts_with_clear now (hfuzz s) (prev_exec_cnt s)) as [rest [Hf [Hlen Hcl]]].
  pose proof (frame_to_stdout now (hfuzz s) (prev_exec_cnt s)) as Hfd.
  rewrite Hf in Hfd. inversion Hfd as [| w l _ Hfd' E]; subst.
  eexists. exists rest.
  split; [now apply exec_display |].
  cbn [stdout]. rewrite Hf. split; [reflexivity |]. split; [exact Hlen |].
  rewrite Forall_forall in *. intros w Hw. split; [now apply Hfd' | now apply Hcl].
Qed.

(** An access log, segment by segment. *)
Ltac forall_accesses :=
  repeat (apply Forall_app; split);
  repeat match goal with
         | |- Forall _ (if ?c then _ else _) => destruct c
         end;
  repeat (apply Forall_cons; [reflexivity |]); apply Forall_nil.

Lemma accesses_lock_free h :
  Forall (fun e => lock_free_access counters_read_atomically e = true) (accesses h).
Proof. unfold accesses. forall_accesses. Qed.

(** Finding an access in the log of a call. *)
Ltac in_accesses :=
  repeat first [ apply in_or_app; left; cbn [In]; tauto | apply in_or_app; right ].

Lemma accesses_dynamicFileBestSz h :
  feedback h = true -> In (ev_load "dynamicFileBestSz") (accesses h).
Proof. intros H. unfold accesses. rewrite H. cbv iota. in_accesses. Qed.

Lemma accesses_always h :
  Forall (fun e => In e (accesses h))
         [ev_atomic_rmw "mutationsCnt"; ev_atomic_rmw "crashesCnt";
          ev_atomic_rmw "uniqueCrashesCnt"; ev_atomic_rmw "blCrashesCnt";
          ev_atomic_rmw "verifiedCrashesCnt"; ev_atomic_rmw "timeoutedCnt"].
Proof.
  repeat (apply Forall_cons; [unfold accesses; in_accesses |]). apply Forall_nil.
Qed.

(** C4, as the code has it: a call takes no mutex; it reads the iteration,
    crash and timeout counters, the expiry of the dynamic file and the
    hardware and software coverage counters with [__sync_fetch_and_add] only
    (the first six of them in every call), and applies that primitive to
    nothing else; the size of the dynamic file it reads, when a feedback
    section is shown, with a plain load. *)
Theorem counters_read_atomically_but_one now s :
  wf_hfuzz (hfuzz s) ->
  exists s' es,
    exec (display_displayLocked now) s = Some s'
    /\ trace s' = trace s ++ es
    /\ Forall (fun e => lock_free_access counters_read_atomically e = true) es
    /\ Forall (fun e => In e es)
              [ev_atomic_rmw "mutationsCnt"; ev_atomic_rmw "crashesCnt";
               ev_atomic_rmw "uniqueCrashesCnt"; ev_atomic_rmw "blCrashesCnt";
               ev_atomic_rmw "verifiedCrashesCnt"; ev_atomic_rmw "timeoutedCnt"]
    /\ (feedback (hfuzz s) = true -> In (ev_load "dynamicFileBestSz") es).
Proof.
  intros Hwf. eexists. exists (accesses (hfuzz s)).
  split; [now apply exec_display |].
  cbn [trace]. split; [reflexivity |].
  split; [apply accesses_lock_free |].
  split; [apply accesses_always | apply accesses_dynamicFileBestSz].
Qed.

Lemma hit_bb_in_frame now h p :
  useSanCov h = true ->
  In (put_call (txt_hit_bb (SanCov.hitBBCnt (sanCovCnts h))
                           (covPer (SanCov.hitBBCnt (sanCovCnts h))
                                   (SanCov.totalBBCnt (sanCovCnts h)))))
     (frame now h p).
Proof. intros H. unfold frame. rewrite H. cbv iota. in_frame. Qed.

Lemma covPer_zero_total hit : covPer hit 0 = 0.
Proof. reflexivity. Qed.

Lemma covPer_exact hit total :
  0 <= hit -> 0 < total -> hit * 100 < 2 ^ 64 -> hit * 100 / total < 2 ^ 8 ->
  covPer hit total = hit * 100 / total.
Proof.
  intros Hh Ht Hm Hq. unfold covPer, to_uint8, to_uint64, wrap.
  destruct (Z.eqb_spec total 0); [lia |]. cbn [negb].
  rewrite (Z.mod_small (hit * 100)) by lia.
  apply Z.mod_small. split; [apply Z.div_pos; lia | exact Hq].
Qed.

Lemma covPer_bounded hit total :
  0 <= hit -> hit <= total -> 0 <= covPer hit total <= 100.
Proof.
  intros Hh Hle. unfold covPer, to_uint8, to_uint64, wrap.
  destruct (Z.eqb_spec total 0) as [-> | Hne]; cbn [negb]; [rewrite Zmod_0_l; lia |].
  assert (Hm : 0 <= (hit * 100) mod 2 ^ 64 <= hit * 100).
  { split; [apply Z.mod_pos_bound; lia | apply Z.mod_le; lia]. }
  assert (Hq : 0 <= (hit * 100) mod 2 ^ 64 / total <= 100).
  { split; [apply Z.div_pos; lia |].
    apply Z.div_le_upper_bound; lia. }
  rewrite Z.mod_small; lia.
Qed.

Lemma wf_sanCov h :
  wf_hfuzz h ->
  in_range 64 (SanCov.hitBBCnt (sanCovCnts h))
  /\ in_range 64 (SanCov.totalBBCnt (sanCovCnts h)).
Proof.
  intros [H _]. rewrite Forall_forall in H.
  split; [apply (H lv_hitBBCnt) | apply (H lv_totalBBCnt)]; unfold atomic_operands; cbn; tauto.
Qed.

(** C5, as the code has it: with software coverage on, the percentage shown
    is 0 when the total is 0; it is the quotient of hit * 100 by the total,
    rounded down, when hit * 100 fits 64 bits and the quotient fits 8 bits,
    as it does for hit <= total; and for hit <= total it lies between 0 and
    100 in every case. *)
Theorem coverage_percentage now s :
  wf_hfuzz (hfuzz s) ->
  useSanCov (hfuzz s) = true ->
  let hit := SanCov.hitBBCnt (sanCovCnts (hfuzz s)) in
  let total := SanCov.totalBBCnt (sanCovCnts (hfuzz s)) in
  exists s' ws percent,
    exec (display_displayLocked now) s = Some s'
    /\ stdout s' = stdout s ++ ws
    /\ In (put_call (txt_hit_bb hit percent)) ws
    /\ percent = covPer hit total
    /\ (total = 0 -> percent = 0)
    /\ (total <> 0 -> hit * 100 < 2 ^ 64 -> hit * 100 / total < 2 ^ 8 ->
        percent = hit * 100 / total)
    /\ (total <> 0 -> hit <= total -> hit * 100 < 2 ^ 64 -> percent = hit * 100 / total)
    /\ (hit <= total -> 0 <= percent <= 100).
Proof.
  intros Hwf Hsc hit total.
  destruct (wf_sanCov _ Hwf) as [Hh Ht]. fold hit in Hh. fold total in Ht.
  unfold in_range in Hh, Ht.
  eexists. exists (frame now (hfuzz s) (prev_exec_cnt s)), (covPer hit total).
  split; [now apply exec_display |].
  cbn [stdout]. split; [reflexivity |].
  split; [now apply hit_bb_in_frame |].
  split; [reflexivity |].
  split; [intros ->; apply covPer_zero_total |].
  split; [intros; apply covPer_exact; lia |].
  split.
  - intros Hne Hle Hm. apply covPer_exact; try lia.
    assert (hit * 100 / total <= 100) by (apply Z.div_le_upper_bound; lia). lia.
  - intros Hle. apply covPer_bounded; lia.
Qed.

(** ** More about [display_put] *)

Lemma string_length_app a b :
  String.length (a ++ b) = (String.length a + String.length b)%nat.
Proof. induction a as [| c a IH]; cbn; [reflexivity | now rewrite IH]. Qed.

Lemma substring_all n : forall x, (String.length x <= n)%nat -> substring 0 n x = x.
Proof.
  induction n as [| n IH]; intros [| c x] H; cbn in *; try reflexivity; try lia.
  rewrite IH; [reflexivity | lia].
Qed.

Lemma substring_length n : forall x,
  (n <= String.length x)%nat -> String.length (substring 0 n x) = n.
Proof.
  induction n as [| n IH]; intros [| c x] H; cbn in *; try reflexivity; try lia.
  rewrite IH; [reflexivity | lia].
Qed.

Lemma prefix_substring_self n : forall x, prefix (substring 0 n x) x = true.
Proof.
  induction n as [| n IH]; intros [| c x]; cbn; try reflexivity.
  destruct (ascii_dec c c) as [_ | Hne]; [apply IH | now elim Hne].
Qed.

Lemma buffer_size : (1024 * 4 - 1)%nat = Z.to_nat 4095.
Proof. reflexivity. Qed.

Lemma run_display_put x s :
  display_put x s
  = Some (tt, Build_world (hfuzz s) (prev_exec_cnt s) (stdout s ++ puts x) (trace s)).
Proof.
  destruct s as [h p o t]. rewrite (yields_put h p x o t). cbn [hfuzz prev_exec_cnt stdout trace].
  now rewrite app_nil_r.
Qed.

(** X1: [display_put] returns after at most one call of [write]: none for an
    empty expansion, which leaves the state as it was, and otherwise one to
    standard output, asked for as many bytes as the expansion has and given
    a buffer that holds a prefix of it.  The handle and the stored previous
    count are never touched. *)
Theorem display_put_writes_at_most_once x s :
  exists ws,
    display_put x s
    = Some (tt, Build_world (hfuzz s) (prev_exec_cnt s) (stdout s ++ ws) (trace s))
    /\ (x = EmptyString -> ws = [] /\ display_put x s = Some (tt, s))
    /\ (x <> EmptyString ->
        exists buf, ws = [sys_write STDOUT_FILENO buf (Z.of_nat (String.length x))]
                    /\ prefix buf x = true).
Proof.
  exists (puts x). split; [apply run_display_put |]. split.
  - intros ->. split; [reflexivity |]. now destruct s.
  - intros Hx. destruct x as [| c x]; [contradiction |].
    rewrite puts_nonempty. eexists. split; [reflexivity |].
    apply prefix_substring_self.
Qed.

(** X2: an expansion of at most 4095 characters is written whole; of a longer
    one the buffer keeps the first 4095 characters while [write] is still
    asked for the length of the whole expansion, which is more than the 4096
    bytes of the buffer once the expansion has more than 4096 characters. *)
Theorem display_put_fits_or_overruns x s :
  x <> EmptyString ->
  exists w,
    display_put x s
    = Some (tt, Build_world (hfuzz s) (prev_exec_cnt s) (stdout s ++ [w]) (trace s))
    /\ wr_count w = Z.of_nat (String.length x)
    /\ (Z.of_nat (String.length x) <= 4095 ->
        wr_buf w = x /\ wr_count w = Z.of_nat (String.length (wr_buf w)))
    /\ (4095 < Z.of_nat (String.length x) ->
        Z.of_nat (String.length (wr_buf w)) = 4095
        /\ Z.of_nat (String.length (wr_buf w)) < wr_count w)
    /\ (4096 < Z.of_nat (String.length x) -> 4096 < wr_count w).
Proof.
  intros Hx. exists (put_call x).
  split. { rewrite run_display_put. destruct x; [contradiction | now rewrite puts_nonempty]. }
  unfold put_call, vsnprintf. cbn [wr_count wr_buf fst snd]. rewrite buffer_size.
  split; [reflexivity |]. split; [| split].
  - intros H. rewrite substring_all by lia. split; reflexivity.
  - intros H. rewrite substring_length by lia. lia.
  - intros H. exact H.
Qed.

(** ** More about the frame *)

Lemma starts_with_put_call label x :
  (String.length label <=? 4095)%nat = true ->
  starts_with label (put_call x) = prefix label x.
Proof. intros H. apply prefix_put_call. now apply Nat.leb_le. Qed.

Lemma line_iff ws label line (c : bool) :
  (String.length label <=? 4095)%nat = true ->
  prefix label line = true ->
  (c = true -> In (put_call line) ws) ->
  (c = false -> Forall (fun w => starts_with label w = false) ws) ->
  shown_exactly_when ws label line c.
Proof.
  intros Hlen Hpre Hin Hout.
  assert (Hline : starts_with label (put_call line) = true)
    by now rewrite starts_with_put_call.
  assert (Hex : (exists w, In w ws /\ starts_with label w = true) -> c = true).
  { intros [w [Hw Hs]]. destruct c; [reflexivity |].
    specialize (Hout eq_refl). rewrite Forall_forall in Hout.
    rewrite (Hout w Hw) in Hs. discriminate. }
  split; split; eauto.
Qed.

(** A conditional line of the frame: there when its condition holds, and
    nothing with its label there otherwise. *)
Ltac line_shown :=
  apply line_iff;
  [ reflexivity
  | reflexivity
  | let Hc := fresh "Hc" in
    intros Hc; unfold frame; rewrite Hc; cbv iota; in_frame
  | let Hc := fresh "Hc" in
    intros Hc; unfold frame; rewrite Hc; cbv iota;
    forall_frame ltac:(rewrite starts_with_put_call by reflexivity; reflexivity) ].

Lemma out_of_shown now h p :
  shown_exactly_when (frame now h p) " (out of: " (txt_out_of (mutationsMax h))
                     (negb (mutationsMax h =? 0)).
Proof. line_shown. Qed.

Lemma remote_shown now h p :
  shown_exactly_when (frame now h p) "Remote cmd [" (txt_remote (pid h) (pidCmd h))
                     (pid h >? 0).
Proof. line_shown. Qed.

Lemma feedback_shown now h p :
  shown_exactly_when (frame now h p) "Dynamic file size: "
                     (txt_dynfile_size (dynamicFileBestSz h) (maxFileSz h)) (feedback h)
  /\ shown_exactly_when (frame now h p) "Dynamic file max iterations keep for chosen seed ("
                        (txt_dynfile_iter (dynFileIterExpire h) _HF_MAX_DYNFILE_ITER)
                        (feedback h)
  /\ shown_exactly_when (frame now h p) "Coverage (max):" txt_coverage (feedback h).
Proof. repeat (split; [line_shown |]); line_shown. Qed.

Lemma counters_shown now h p :
  shown_exactly_when (frame now h p) "  - cpu instructions:      "
                     (txt_instr (HwCnt.cpuInstrCnt (hwCnts h)))
                     (has_bit (dynFileMethod h) _HF_DYNFILE_INSTR_COUNT)
  /\ shown_exactly_when (frame now h p) "  - cpu branches:          "
                        (txt_branch (HwCnt.cpuBranchCnt (hwCnts h)))
                        (has_bit (dynFileMethod h) _HF_DYNFILE_BRANCH_COUNT)
  /\ shown_exactly_when (frame now h p) "  - BTS unique blocks: "
                        (txt_bts_block (HwCnt.cpuBtsBlockCnt (hwCnts h)))
                        (has_bit (dynFileMethod h) _HF_DYNFILE_BTS_BLOCK)
  /\ shown_exactly_when (frame now h p) "  - BTS unique edges:   "
                        (txt_bts_edge (HwCnt.cpuBtsEdgeCnt (hwCnts h)))
                        (has_bit (dynFileMethod h) _HF_DYNFILE_BTS_EDGE)
  /\ shown_exactly_when (frame now h p) "  - PT unique blocks: "
                        (txt_ipt_block (HwCnt.cpuIptBlockCnt (hwCnts h)))
                        (has_bit (dynFileMethod h) _HF_DYNFILE_IPT_BLOCK)
  /\ shown_exactly_when (frame now h p) "  - custom counter:        "
                        (txt_custom (HwCnt.customCnt (hwCnts h)))
                        (has_bit (dynFileMethod h) _HF_DYNFILE_CUSTOM).
Proof. repeat (split; [line_shown |]); line_shown. Qed.

Lemma sancov_shown now h p :
  shown_exactly_when (frame now h p) "  - total hit #bb:  "
                     (txt_hit_bb (SanCov.hitBBCnt (sanCovCnts h))
                                 (covPer (SanCov.hitBBCnt (sanCovCnts h))
                                         (SanCov.totalBBCnt (sanCovCnts h))))
                     (useSanCov h)
  /\ shown_exactly_when (frame now h p) "  - total #dso:     "
                        (txt_dso (SanCov.iDsoCnt (sanCovCnts h))) (useSanCov h)
  /\ shown_exactly_when (frame now h p) "  - discovered #bb: "
                        (txt_new_bb (SanCov.newBBCnt (sanCovCnts h))) (useSanCov h)
  /\ shown_exactly_when (frame now h p) "  - crashes:        "
                        (txt_sancov_crashes (SanCov.crashesCnt (sanCovCnts h))) (useSanCov h).
Proof. repeat (split; [line_shown |]); line_shown. Qed.

(** The state a call ends in, and what is left to show of its frame. *)
Ltac frame_of_call now s :=
  exists (Build_world (hfuzz s) (clamped_exec_cnt (hfuzz s))
            (stdout s ++ frame now (hfuzz s) (prev_exec_cnt s))
            (trace s ++ accesses (hfuzz s))),
         (frame now (hfuzz s) (prev_exec_cnt s));
  split; [now apply exec_display | split; [reflexivity |]].

(** X5: the cap follows the iteration count exactly when it is not zero; no
    write of the frame starts with its label otherwise. *)
Theorem cap_shown_iff_configured now s :
  wf_hfuzz (hfuzz s) ->
  exists s' ws,
    exec (display_displayLocked now) s = Some s'
    /\ stdout s' = stdout s ++ ws
    /\ shown_exactly_when ws " (out of: " (txt_out_of (mutationsMax (hfuzz s)))
                          (negb (mutationsMax (hfuzz s) =? 0)).
Proof. intros Hwf. frame_of_call now s. apply out_of_shown. Qed.

(** X7: the line of the remote process is written exactly when [pid] is
    positive. *)
Theorem remote_shown_iff_attached now s :
  wf_hfuzz (hfuzz s) ->
  exists s' ws,
    exec (display_displayLocked now) s = Some s'
    /\ stdout s' = stdout s ++ ws
    /\ shown_exactly_when ws "Remote cmd [" (txt_remote (pid (hfuzz s)) (pidCmd (hfuzz s)))
                          (pid (hfuzz s) >? 0)
    /\ ((pid (hfuzz s) >? 0) = true <-> 0 < pid (hfuzz s)).
Proof.
  intros Hwf. frame_of_call now s. split; [apply remote_shown |].
  destruct (Z.gtb_spec (pid (hfuzz s)) 0); split; intros; try reflexivity; try lia; discriminate.
Qed.

(** X9: the three lines that head the feedback data are written exactly when a
    dynamic-file method other than [_HF_DYNFILE_NONE] is selected or the
    software coverage is on. *)
Theorem feedback_header_iff_enabled now s :
  wf_hfuzz (hfuzz s) ->
  let h := hfuzz s in
  exists s' ws,
    exec (display_displayLocked now) s = Some s'
    /\ stdout s' = stdout s ++ ws
    /\ shown_exactly_when ws "Dynamic file size: "
                          (txt_dynfile_size (dynamicFileBestSz h) (maxFileSz h)) (feedback h)
    /\ shown_exactly_when ws "Dynamic file max iterations keep for chosen seed ("
                          (txt_dynfile_iter (dynFileIterExpire h) _HF_MAX_DYNFILE_ITER)
                          (feedback h)
    /\ shown_exactly_when ws "Coverage (max):" txt_coverage (feedback h)
    /\ (feedback h = true <-> dynFileMethod h <> _HF_DYNFILE_NONE \/ useSanCov h = true).
Proof.
  intros Hwf h. frame_of_call now s.
  destruct (feedback_shown now h (prev_exec_cnt s)) as (H1 & H2 & H3).
  repeat (split; [assumption |]).
  unfold feedback. destruct (Z.eqb_spec (dynFileMethod h) _HF_DYNFILE_NONE) as [E | E]; cbn [negb].
  - split; [now right | intros [H | H]; [contradiction | exact H]].
  - split; [now left | reflexivity].
Qed.

(** X10: each of the six lines of hardware and custom counters is written exactly
    when the bit of its method is set in [dynFileMethod], whatever the other
    bits are. *)
Theorem counter_lines_iff_bits now s :
  wf_hfuzz (hfuzz s) ->
  let h := hfuzz s in
  exists s' ws,
    exec (display_displayLocked now) s = Some s'
    /\ stdout s' = stdout s ++ ws
    /\ shown_exactly_when ws "  - cpu instructions:      "
                          (txt_instr (HwCnt.cpuInstrCnt (hwCnts h)))
                          (has_bit (dynFileMethod h) _HF_DYNFILE_INSTR_COUNT)
    /\ shown_exactly_when ws "  - cpu branches:          "
                          (txt_branch (HwCnt.cpuBranchCnt (hwCnts h)))
                          (has_bit (dynFileMethod h) _HF_DYNFILE_BRANCH_COUNT)
    /\ shown_exactly_when ws "  - BTS unique blocks: "
                          (txt_bts_block (HwCnt.cpuBtsBlockCnt (hwCnts h)))
                          (has_bit (dynFileMethod h) _HF_DYNFILE_BTS_BLOCK)
    /\ shown_exactly_when ws "  - BTS unique edges:   "
                          (txt_bts_edge (HwCnt.cpuBtsEdgeCnt (hwCnts h)))
                          (has_bit (dynFileMethod h) _HF_DYNFILE_BTS_EDGE)
    /\ shown_exactly_when ws "  - PT unique blocks: "
                          (txt_ipt_block (HwCnt.cpuIptBlockCnt (hwCnts h)))
                          (has_bit (dynFileMethod h) _HF_DYNFILE_IPT_BLOCK)
    /\ shown_exactly_when ws "  - custom counter:        "
                          (txt_custom (HwCnt.customCnt (hwCnts h)))
                          (has_bit (dynFileMethod h) _HF_DYNFILE_CUSTOM).
Proof. intros Hwf h. frame_of_call now s. apply counters_shown. Qed.

(** X11: the four lines of the software coverage are written exactly when
    [useSanCov] is set. *)
Theorem sancov_lines_iff_enabled now s :
  wf_hfuzz (hfuzz s) ->
  let h := hfuzz s in
  exists s' ws,
    exec (display_displayLocked now) s = Some s'
    /\ stdout s' = stdout s ++ ws
    /\ shown_exactly_when ws "  - total hit #bb:  "
                          (txt_hit_bb (SanCov.hitBBCnt (sanCovCnts h))
                                      (covPer (SanCov.hitBBCnt (sanCovCnts h))
                                              (SanCov.totalBBCnt (sanCovCnts h))))
                          (useSanCov h)
    /\ shown_exactly_when ws "  - total #dso:     "
                          (txt_dso (SanCov.iDsoCnt (sanCovCnts h))) (useSanCov h)
    /\ shown_exactly_when ws "  - discovered #bb: "
                          (txt_new_bb (SanCov.newBBCnt (sanCovCnts h))) (useSanCov h)
    /\ shown_exactly_when ws "  - crashes:        "
                          (txt_sancov_crashes (SanCov.crashesCnt (sanCovCnts h)))
                          (useSanCov h).
Proof. intros Hwf h. frame_of_call now s. apply sancov_shown. Qed.

Lemma length_when {A} (c : bool) (l : list A) :
  List.length (if c then l else []) = (Nat.b2n c * List.length l)%nat.
Proof. destruct c; cbn; lia. Qed.

Lemma b2n_le_1 (c : bool) : (Nat.b2n c <= 1)%nat.
Proof. destruct c; cbn; lia. Qed.

Lemma frame_length now h p :
  List.length (frame now h p)
  = (12 + Nat.b2n (negb (mutationsMax h =? 0)%Z) + Nat.b2n (pid h >? 0)%Z + Nat.b2n (dry_run h)
     + 3 * Nat.b2n (feedback h)
     + Nat.b2n (has_bit (dynFileMethod h) _HF_DYNFILE_INSTR_COUNT)
     + Nat.b2n (has_bit (dynFileMethod h) _HF_DYNFILE_BRANCH_COUNT)
     + Nat.b2n (has_bit (dynFileMethod h) _HF_DYNFILE_BTS_BLOCK)
     + Nat.b2n (has_bit (dynFileMethod h) _HF_DYNFILE_BTS_EDGE)
     + Nat.b2n (has_bit (dynFileMethod h) _HF_DYNFILE_IPT_BLOCK)
     + Nat.b2n (has_bit (dynFileMethod h) _HF_DYNFILE_CUSTOM)
     + 4 * Nat.b2n (useSanCov h))%nat.
Proof.
  unfold frame. rewrite !puts_one by reflexivity.
  rewrite !length_app, !length_when. cbn [List.length app]. lia.
Qed.

(** X13: a frame takes twelve writes and one more for each conditional line:
    between 12 and 28 in all. *)
Theorem frame_size now s :
  wf_hfuzz (hfuzz s) ->
  let h := hfuzz s in
  exists s' ws,
    exec (display_displayLocked now) s = Some s'
    /\ stdout s' = stdout s ++ ws
    /\ List.length ws
       = (12 + Nat.b2n (negb (mutationsMax h =? 0)%Z) + Nat.b2n (pid h >? 0)%Z
          + Nat.b2n (dry_run h) + 3 * Nat.b2n (feedback h)
          + Nat.b2n (has_bit (dynFileMethod h) _HF_DYNFILE_INSTR_COUNT)
          + Nat.b2n (has_bit (dynFileMethod h) _HF_DYNFILE_BRANCH_COUNT)
          + Nat.b2n (has_bit (dynFileMethod h) _HF_DYNFILE_BTS_BLOCK)
          + Nat.b2n (has_bit (dynFileMethod h) _HF_DYNFILE_BTS_EDGE)
          + Nat.b2n (has_bit (dynFileMethod h) _HF_DYNFILE_IPT_BLOCK)
          + Nat.b2n (has_bit (dynFileMethod h) _HF_DYNFILE_CUSTOM)
          + 4 * Nat.b2n (useSanCov h))%nat
    /\ (12 <= List.length ws <= 28)%nat.
Proof.
  intros Hwf h. frame_of_call now s.
  rewrite frame_length. fold h. split; [reflexivity |].
  pose proof (b2n_le_1 (negb (mutationsMax h =? 0))).
  pose proof (b2n_le_1 (pid h >? 0)).
  pose proof (b2n_le_1 (dry_run h)).
  pose proof (b2n_le_1 (feedback h)).
  pose proof (b2n_le_1 (has_bit (dynFileMethod h) _HF_DYNFILE_INSTR_COUNT)).
  pose proof (b2n_le_1 (has_bit (dynFileMethod h) _HF_DYNFILE_BRANCH_COUNT)).
  pose proof (b2n_le_1 (has_bit (dynFileMethod h) _HF_DYNFILE_BTS_BLOCK)).
  pose proof (b2n_le_1 (has_bit (dynFileMethod h) _HF_DYNFILE_BTS_EDGE)).
  pose proof (b2n_le_1 (has_bit (dynFileMethod h) _HF_DYNFILE_IPT_BLOCK)).
  pose proof (b2n_le_1 (has_bit (dynFileMethod h) _HF_DYNFILE_CUSTOM)).
  pose proof (b2n_le_1 (useSanCov h)).
  lia.
Qed.

Lemma frame_banners now h p :
  exists mid,
    frame now h p
    = put_call ESC_CLEAR :: put_call txt_stat :: mid ++ [put_call txt_logs].
Proof.
  unfold frame.
  rewrite (puts_one ESC_CLEAR), (puts_one txt_stat), (puts_one txt_logs) by reflexivity.
  cbn [app]. rewrite !app_assoc. eexists. reflexivity.
Qed.

(** X12: every frame opens with the clear sequence and the STAT banner and closes
    with the LOGS banner, whatever sections lie between them. *)
Theorem frame_between_banners now s :
  wf_hfuzz (hfuzz s) ->
  exists s' ws mid,
    exec (display_displayLocked now) s = Some s'
    /\ stdout s' = stdout s ++ ws
    /\ ws = put_call ESC_CLEAR :: put_call txt_stat :: mid ++ [put_call txt_logs]
    /\ last ws (put_call ESC_CLEAR) = put_call txt_logs.
Proof.
  intros Hwf. destruct (frame_banners now (hfuzz s) (prev_exec_cnt s)) as [mid Hf].
  eexists. exists (frame now (hfuzz s) (prev_exec_cnt s)), mid.
  split; [now apply exec_display |]. split; [reflexivity |]. split; [exact Hf |].
  rewrite Hf.
  change (put_call ESC_CLEAR :: put_call txt_stat :: mid ++ [put_call txt_logs])
    with ((put_call ESC_CLEAR :: put_call txt_stat :: mid) ++ [put_call txt_logs]).
  apply last_last.
Qed.

Lemma length_txt_input f :
  Z.of_nat (String.length (txt_input f)) = Z.of_nat (String.length f) + 27.
Proof.
  unfold txt_input, bold. rewrite !string_length_app.
  change (String.length "Input file/dir: '") with 17%nat.
  change (String.length ESC_BOLD) with 4%nat. change (String.length ESC_RESET) with 4%nat.
  change (String.length "'") with 1%nat. change (String.length NL) with 1%nat. lia.
Qed.

Lemma input_in_frame now h p : In (put_call (txt_input (inputFile h))) (frame now h p).
Proof. unfold frame. in_frame. Qed.

(** X3: the line of the input path is not cut to the buffer: [write] is asked for
    the length of the path plus the 27 characters around it, and with a path
    of more than 4069 characters that is more than the 4096 bytes of the
    buffer, which then holds 4095 characters of the line. *)
Theorem long_input_path_overruns_buffer now s :
  wf_hfuzz (hfuzz s) ->
  exists s' ws w,
    exec (display_displayLocked now) s = Some s'
    /\ stdout s' = stdout s ++ ws
    /\ In w ws
    /\ prefix "Input file/dir: '" (wr_buf w) = true
    /\ wr_count w = Z.of_nat (String.length (inputFile (hfuzz s))) + 27
    /\ (4069 < Z.of_nat (String.length (inputFile (hfuzz s))) ->
        4096 < wr_count w /\ Z.of_nat (String.length (wr_buf w)) = 4095).
Proof.
  intros Hwf.
  eexists. exists (frame now (hfuzz s) (prev_exec_cnt s)),
                  (put_call (txt_input (inputFile (hfuzz s)))).
  split; [now apply exec_display |]. split; [reflexivity |].
  split; [apply input_in_frame |].
  split. { change (starts_with "Input file/dir: '"
                     (put_call (txt_input (inputFile (hfuzz s)))) = true).
           rewrite starts_with_put_call by reflexivity. reflexivity. }
  pose proof (length_txt_input (inputFile (hfuzz s))) as Hlen.
  unfold put_call, vsnprintf. cbn [wr_count wr_buf fst snd]. rewrite buffer_size.
  split; [exact Hlen |].
  intros Hlong. split; [lia |]. rewrite substring_length by lia. lia.
Qed.




Lemma clamped_min h :
  (0 < mutationsMax h -> clamped_exec_cnt h = Z.min (mutationsCnt h) (mutationsMax h))
  /\ (mutationsMax h <= 0 -> clamped_exec_cnt h = mutationsCnt h).
Proof.
  unfold clamped_exec_cnt, over_cap.
  destruct (Z.gtb_spec (mutationsMax h) 0);
    destruct (Z.gtb_spec (mutationsCnt h) (mutationsMax h)); split; intros; lia.
Qed.

(** X4: the count on the Iterations line is the smaller of the counter and the
    cap when a cap is set, so never above either, and the counter itself
    when the cap is zero. *)
Theorem displayed_count_is_min now s :
  wf_hfuzz (hfuzz s) ->
  let h := hfuzz s in
  exists s' ws shown,
    exec (display_displayLocked now) s = Some s'
    /\ stdout s' = stdout s ++ ws
    /\ nth_error ws 2 = Some (put_call (txt_iterations shown))
    /\ prev_exec_cnt s' = shown
    /\ (0 < mutationsMax h -> shown = Z.min (mutationsCnt h) (mutationsMax h))
    /\ (mutationsMax h = 0 -> shown = mutationsCnt h)
    /\ 0 <= shown <= mutationsCnt h.
Proof.
  intros Hwf h.
  eexists. exists (frame now h (prev_exec_cnt s)), (clamped_exec_cnt h).
  split; [now apply exec_display |]. split; [reflexivity |].
  split; [apply iterations_in_frame |]. split; [reflexivity |].
  destruct (clamped_min h) as [Hcap Hnocap].
  pose proof (wf_mutationsCnt _ Hwf) as Hc. destruct Hwf as [_ Hm].
  fold h in Hc, Hm. unfold in_range in Hc, Hm.
  split; [exact Hcap |]. split; [intros H0; apply Hnocap; lia |].
  destruct (Z.eq_dec (mutationsMax h) 0) as [E | E].
  - rewrite Hnocap by lia. lia.
  - rewrite Hcap by lia. lia.
Qed.

Lemma clamped_monotone h1 h2 :
  mutationsMax h2 = mutationsMax h1 ->
  mutationsCnt h1 <= mutationsCnt h2 ->
  clamped_exec_cnt h1 <= clamped_exec_cnt h2.
Proof.
  intros Hm Hc. unfold clamped_exec_cnt, over_cap. rewrite Hm.
  destruct (Z.gtb_spec (mutationsMax h1) 0);
    destruct (Z.gtb_spec (mutationsCnt h1) (mutationsMax h1));
    destruct (Z.gtb_spec (mutationsCnt h2) (mutationsMax h1)); lia.
Qed.

(** X17: a call through [display_display] returns and leaves a stored count that
    fits [size_t] and is not above a positive cap: the next call finds the
    state it needs, whatever the stored count was before. *)
Theorem display_display_keeps_state_valid now s :
  wf_hfuzz (hfuzz s) ->
  exists s',
    exec (display_display now) s = Some s'
    /\ wf_world s'
    /\ (0 < mutationsMax (hfuzz s) -> prev_exec_cnt s' <= mutationsMax (hfuzz s)).
Proof.
  intros Hwf. eexists. unfold display_display.
  split; [now apply exec_display |].
  unfold wf_world. cbn [hfuzz prev_exec_cnt].
  split; [split; [exact Hwf | now apply clamped_in_range] |].
  intros Hpos. destruct (clamped_min (hfuzz s)) as [Hcap _]. rewrite Hcap by assumption. lia.
Qed.

(** X18: two successive calls through [display_display], the cap unchanged and
    the counter not decreased in between: the second shows as its rate the
    difference of the two displayed counts, with no wrap-around; that is 0
    when the counter did not move. *)
Theorem rate_between_calls now1 now2 s h2 :
  wf_hfuzz (hfuzz s) -> wf_hfuzz h2 ->
  mutationsMax h2 = mutationsMax (hfuzz s) ->
  mutationsCnt (hfuzz s) <= mutationsCnt h2 ->
  exists s1 s2 ws rate,
    exec (display_display now1) s = Some s1
    /\ exec (display_display now2) (with_hfuzz h2 s1) = Some s2
    /\ stdout s2 = stdout s1 ++ ws
    /\ In (put_call (txt_execs rate (avg_exec_per_sec (clamped_exec_cnt h2)
                                                      (elapsed_secs now2 h2)))) ws
    /\ rate = clamped_exec_cnt h2 - clamped_exec_cnt (hfuzz s)
    /\ 0 <= rate
    /\ (mutationsCnt h2 = mutationsCnt (hfuzz s) -> rate = 0).
Proof.
  intros Hwf Hwf2 Hm Hc. unfold display_display.
  pose proof (clamped_monotone _ _ Hm Hc) as Hle.
  pose proof (clamped_in_range _ Hwf) as H1. pose proof (clamped_in_range _ Hwf2) as H2.
  unfold in_range in H1, H2.
  eexists. eexists. exists (frame now2 h2 (clamped_exec_cnt (hfuzz s))),
                          (clamped_exec_cnt h2 - clamped_exec_cnt (hfuzz s)).
  split; [now apply exec_display |].
  split; [apply exec_display; exact Hwf2 |].
  cbn [stdout with_hfuzz hfuzz prev_exec_cnt]. split; [reflexivity |].
  split.
  { pose proof (execs_in_frame now2 h2 (clamped_exec_cnt (hfuzz s))) as Hin.
    unfold to_uintptr_t, wrap in Hin. rewrite Z.mod_small in Hin by lia. exact Hin. }
  split; [reflexivity |]. split; [lia |].
  intros Heq. unfold clamped_exec_cnt, over_cap. rewrite Hm, Heq. lia.
Qed.

Lemma start_time_in_frame now h p :
  In (put_call (txt_start_time (util_getLocalTime "%F %T" 128 (timeStart h))
                               (elapsed_secs now h)))
     (frame now h p).
Proof. unfold frame. in_frame. Qed.

(** X6: the Start time line carries the start time formatted by
    [util_getLocalTime] with ["%F %T"] and the seconds since then as an
    [unsigned long]: the difference of the two times when the clock is not
    behind the start, and 2^w less the lag when the clock is behind it. *)
Theorem elapsed_seconds_shown now s :
  wf_hfuzz (hfuzz s) ->
  let start := timeStart (hfuzz s) in
  exists s' ws elapsed,
    exec (display_displayLocked now) s = Some s'
    /\ stdout s' = stdout s ++ ws
    /\ In (put_call (txt_start_time (util_getLocalTime "%F %T" 128 start) elapsed)) ws
    /\ 0 <= elapsed < 2 ^ Zpos SIZE_WIDTH
    /\ (start <= now < start + 2 ^ Zpos SIZE_WIDTH -> elapsed = now - start)
    /\ (now < start <= now + 2 ^ Zpos SIZE_WIDTH ->
        elapsed = 2 ^ Zpos SIZE_WIDTH - (start - now)).
Proof.
  intros Hwf start.
  eexists. exists (frame now (hfuzz s) (prev_exec_cnt s)), (elapsed_secs now (hfuzz s)).
  split; [now apply exec_display |]. split; [reflexivity |].
  split; [apply start_time_in_frame |].
  unfold elapsed_secs, to_ulong, wrap. fold start.
  assert (Hpos : 0 < 2 ^ Zpos SIZE_WIDTH) by now apply Z.pow_pos_nonneg.
  split; [now apply Z.mod_pos_bound |]. split.
  - intros H. apply Z.mod_small. lia.
  - intros H. symmetry. apply (Z.mod_unique _ _ (-1)); lia.
Qed.

(** X8: the average on the rate line is never negative and never above the
    displayed count, and it is 0 whenever fewer iterations were run than
    seconds have elapsed. *)
Theorem average_rate_bounded now s :
  wf_hfuzz (hfuzz s) ->
  let curr := clamped_exec_cnt (hfuzz s) in
  let elapsed := elapsed_secs now (hfuzz s) in
  exists s' ws avg,
    exec (display_displayLocked now) s = Some s'
    /\ stdout s' = stdout s ++ ws
    /\ In (put_call (txt_execs (to_uintptr_t (curr - prev_exec_cnt s)) avg)) ws
    /\ 0 <= avg <= curr
    /\ (curr < elapsed -> avg = 0).
Proof.
  intros Hwf curr elapsed.
  eexists. exists (frame now (hfuzz s) (prev_exec_cnt s)), (avg_exec_per_sec curr elapsed).
  split; [now apply exec_display |]. split; [reflexivity |].
  split; [apply execs_in_frame |].
  pose proof (clamped_in_range _ Hwf) as Hc. fold curr in Hc. unfold in_range in Hc.
  assert (He : 0 <= elapsed).
  { unfold elapsed, elapsed_secs, to_ulong, wrap. apply Z.mod_pos_bound.
    now apply Z.pow_pos_nonneg. }
  unfold avg_exec_per_sec. destruct (Z.eqb_spec elapsed 0) as [E | E]; cbn [negb].
  - split; [lia | reflexivity].
  - split.
    + split; [apply Z.div_pos; lia |].
      apply Z.div_le_upper_bound; [lia |]. nia.
    + intros Hlt. apply Z.div_small. lia.
Qed.

Lemma existsb_false_Forall {A} (f : A -> bool) l :
  Forall (fun x => f x = false) l -> existsb f l = false.
Proof.
  induction 1 as [| x l Hx _ IH]; [reflexivity |]. cbn. now rewrite Hx, IH.
Qed.

Lemma existsb_true_In {A} (f : A -> bool) l x : In x l -> f x = true -> existsb f l = true.
Proof. intros Hin Hf. apply existsb_exists. eauto. Qed.

(** Whether a member is accessed in a way, from the condition [c] its
    access stands under. *)
Ltac accessed_iff c e :=
  let Hc := fresh "Hc" in
  destruct c eqn:Hc;
  [ apply (existsb_true_In _ _ e); [unfold accesses; rewrite ?Hc; cbv iota; in_accesses; try (cbn [In]; tauto)
                                   | reflexivity]
  | apply existsb_false_Forall; unfold accesses; rewrite ?Hc; cbv iota; forall_accesses ].

Lemma accesses_on_demand h :
  existsb (loads "pidCmd") (accesses h) = (pid h >? 0)
  /\ existsb (loads "useVerifier") (accesses h) = PrimFloat.eqb (flipRate h) 0%float
  /\ existsb (loads "fileCnt") (accesses h) = dry_run h
  /\ existsb (loads "dynamicFileBestSz") (accesses h) = feedback h
  /\ existsb (loads "maxFileSz") (accesses h) = feedback h.
Proof.
  split; [accessed_iff (pid h >? 0) (ev_load "pidCmd") |].
  split; [accessed_iff (PrimFloat.eqb (flipRate h) 0%float) (ev_load "useVerifier") |].
  split; [accessed_iff (dry_run h) (ev_load "fileCnt") |].
  split; [accessed_iff (feedback h) (ev_load "dynamicFileBestSz")
         | accessed_iff (feedback h) (ev_load "maxFileSz")].
Qed.

(** X15: the operands evaluated on demand: [pidCmd] is loaded exactly when [pid]
    is positive, [useVerifier] exactly when the flip rate equals 0 (the right
    operand of [&&]), [fileCnt] exactly in a dry run, and the two sizes of
    the dynamic file exactly when the feedback header is shown. *)
Theorem members_loaded_on_demand now s :
  wf_hfuzz (hfuzz s) ->
  let h := hfuzz s in
  exists s' es,
    exec (display_displayLocked now) s = Some s'
    /\ trace s' = trace s ++ es
    /\ existsb (loads "pidCmd") es = (pid h >? 0)
    /\ existsb (loads "useVerifier") es = PrimFloat.eqb (flipRate h) 0%float
    /\ existsb (loads "fileCnt") es = dry_run h
    /\ existsb (loads "dynamicFileBestSz") es = feedback h
    /\ existsb (loads "maxFileSz") es = feedback h.
Proof.
  intros Hwf h. eexists. exists (accesses h).
  split; [now apply exec_display |]. split; [reflexivity |].
  apply accesses_on_demand.
Qed.

Lemma accesses_of_shown_counters h :
  existsb (bumps "dynFileIterExpire") (accesses h) = feedback h
  /\ existsb (bumps "hwCnts.cpuInstrCnt") (accesses h)
     = has_bit (dynFileMethod h) _HF_DYNFILE_INSTR_COUNT
  /\ existsb (bumps "hwCnts.cpuBranchCnt") (accesses h)
     = has_bit (dynFileMethod h) _HF_DYNFILE_BRANCH_COUNT
  /\ existsb (bumps "hwCnts.cpuBtsBlockCnt") (accesses h)
     = has_bit (dynFileMethod h) _HF_DYNFILE_BTS_BLOCK
  /\ existsb (bumps "hwCnts.cpuBtsEdgeCnt") (accesses h)
     = has_bit (dynFileMethod h) _HF_DYNFILE_BTS_EDGE
  /\ existsb (bumps "hwCnts.cpuIptBlockCnt") (accesses h)
     = has_bit (dynFileMethod h) _HF_DYNFILE_IPT_BLOCK
  /\ existsb (bumps "hwCnts.customCnt") (accesses h)
     = has_bit (dynFileMethod h) _HF_DYNFILE_CUSTOM
  /\ Forall (fun member => existsb (bumps member) (accesses h) = useSanCov h)
            ["sanCovCnts.hitBBCnt"; "sanCovCnts.totalBBCnt"; "sanCovCnts.iDsoCnt";
             "sanCovCnts.newBBCnt"; "sanCovCnts.crashesCnt"].
Proof.
  split; [accessed_iff (feedback h) (ev_atomic_rmw "dynFileIterExpire") |].
  split; [accessed_iff (has_bit (dynFileMethod h) _HF_DYNFILE_INSTR_COUNT)
                       (ev_atomic_rmw "hwCnts.cpuInstrCnt") |].
  split; [accessed_iff (has_bit (dynFileMethod h) _HF_DYNFILE_BRANCH_COUNT)
                       (ev_atomic_rmw "hwCnts.cpuBranchCnt") |].
  split; [accessed_iff (has_bit (dynFileMethod h) _HF_DYNFILE_BTS_BLOCK)
                       (ev_atomic_rmw "hwCnts.cpuBtsBlockCnt") |].
  split; [accessed_iff (has_bit (dynFileMethod h) _HF_DYNFILE_BTS_EDGE)
                       (ev_atomic_rmw "hwCnts.cpuBtsEdgeCnt") |].
  split; [accessed_iff (has_bit (dynFileMethod h) _HF_DYNFILE_IPT_BLOCK)
                       (ev_atomic_rmw "hwCnts.cpuIptBlockCnt") |].
  split; [accessed_iff (has_bit (dynFileMethod h) _HF_DYNFILE_CUSTOM)
                       (ev_atomic_rmw "hwCnts.customCnt") |].
  repeat apply Forall_cons; try apply Forall_nil.
  - accessed_iff (useSanCov h) (ev_atomic_rmw "sanCovCnts.hitBBCnt").
  - accessed_iff (useSanCov h) (ev_atomic_rmw "sanCovCnts.totalBBCnt").
  - accessed_iff (useSanCov h) (ev_atomic_rmw "sanCovCnts.iDsoCnt").
  - accessed_iff (useSanCov h) (ev_atomic_rmw "sanCovCnts.newBBCnt").
  - accessed_iff (useSanCov h) (ev_atomic_rmw "sanCovCnts.crashesCnt").
Qed.

(** X16: a call applies [__sync_fetch_and_add] to the counter of a mechanism only
    when that mechanism is shown: to the expiry of the dynamic file exactly
    with the feedback header, to each hardware or custom counter exactly when
    its bit is set, to the five software coverage counters exactly when
    [useSanCov] is set. *)
Theorem counters_touched_only_when_shown now s :
  wf_hfuzz (hfuzz s) ->
  let h := hfuzz s in
  exists s' es,
    exec (display_displayLocked now) s = Some s'
    /\ trace s' = trace s ++ es
    /\ existsb (bumps "dynFileIterExpire") es = feedback h
    /\ existsb (bumps "hwCnts.cpuInstrCnt") es
       = has_bit (dynFileMethod h) _HF_DYNFILE_INSTR_COUNT
    /\ existsb (bumps "hwCnts.cpuBranchCnt") es
       = has_bit (dynFileMethod h) _HF_DYNFILE_BRANCH_COUNT
    /\ existsb (bumps "hwCnts.cpuBtsBlockCnt") es
       = has_bit (dynFileMethod h) _HF_DYNFILE_BTS_BLOCK
    /\ existsb (bumps "hwCnts.cpuBtsEdgeCnt") es
       = has_bit (dynFileMethod h) _HF_DYNFILE_BTS_EDGE
    /\ existsb (bumps "hwCnts.cpuIptBlockCnt") es
       = has_bit (dynFileMethod h) _HF_DYNFILE_IPT_BLOCK
    /\ existsb (bumps "hwCnts.customCnt") es
       = has_bit (dynFileMethod h) _HF_DYNFILE_CUSTOM
    /\ Forall (fun member => existsb (bumps member) es = useSanCov h)
              ["sanCovCnts.hitBBCnt"; "sanCovCnts.totalBBCnt"; "sanCovCnts.iDsoCnt";
               "sanCovCnts.newBBCnt"; "sanCovCnts.crashesCnt"].
Proof.
  intros Hwf h. eexists. exists (accesses h).
  split; [now apply exec_display |]. split; [reflexivity |].
  apply accesses_of_shown_counters.
Qed.

End Display.

(** ** The claims on the sample campaign *)

Local Abbreviation sample_display :=
  (display_displayLocked Sample.SIZE_WIDTH Sample._HF_DYNFILE_NONE
     Sample._HF_DYNFILE_INSTR_COUNT Sample._HF_DYNFILE_BRANCH_COUNT
     Sample._HF_DYNFILE_BTS_BLOCK Sample._HF_DYNFILE_BTS_EDGE
     Sample._HF_DYNFILE_IPT_BLOCK Sample._HF_DYNFILE_CUSTOM
     Sample._HF_MAX_DYNFILE_ITER Sample.local_time).

Local Notation "'on_sample' T" :=
  (T Sample.SIZE_WIDTH Sample._HF_DYNFILE_NONE
     Sample._HF_DYNFILE_INSTR_COUNT Sample._HF_DYNFILE_BRANCH_COUNT
     Sample._HF_DYNFILE_BTS_BLOCK Sample._HF_DYNFILE_BTS_EDGE
     Sample._HF_DYNFILE_IPT_BLOCK Sample._HF_DYNFILE_CUSTOM
     Sample._HF_MAX_DYNFILE_ITER Sample.local_time) (at level 10, T at level 9).

(** Every counter of a concrete handle fits its width. *)
Ltac fits := vm_compute; (split; [discriminate | reflexivity]).
Ltac wf_by_computation :=
  split;
  [ unfold atomic_operands; repeat (apply Forall_cons; [fits |]); apply Forall_nil
  | fits ].

(** Membership in a concrete list. *)
Ltac in_by_computation :=
  vm_compute; repeat first [left; reflexivity | right].

(** The first call on the sample campaign, ten seconds after its start:
    1000 is shown for the 1200 iterations counted. *)
Lemma iteration_count_clamped_to_cap_witness :
  exists s' ws,
    exec (sample_display 110) (init_world Sample.h) = Some s'
    /\ stdout s' = [] ++ ws
    /\ nth_error ws 2 = Some (put_call (txt_iterations 1000))
    /\ In (put_call (txt_execs 1000 100)) ws
    /\ prev_exec_cnt s' = 1000
    /\ mutationsCnt (hfuzz s') = 1200.
Proof.
  apply (on_sample iteration_count_clamped_to_cap 110 (init_world Sample.h)).
  - wf_by_computation.
  - reflexivity.
  - reflexivity.
Defined.

(** The first call reports the clamped count itself as the rate. *)
Lemma interval_rate_and_stored_count_witness :
  exists s' ws rate,
    exec (sample_display 110) (init_world Sample.h) = Some s'
    /\ stdout s' = [] ++ ws
    /\ In (put_call (txt_execs rate 100)) ws
    /\ rate = 1000
    /\ (0 <= 1000 -> rate = 1000)
    /\ (0 = 0 -> rate = 1000)
    /\ 0 = 0
    /\ prev_exec_cnt s' = 1000.
Proof.
  apply (on_sample interval_rate_and_stored_count 110 (init_world Sample.h)).
  split; [wf_by_computation | fits].
Defined.

(** A call in the second the campaign started in: the average is 0. *)
Lemma average_rate_guarded_witness :
  exists s' ws avg,
    exec (sample_display 100) (init_world Sample.h) = Some s'
    /\ stdout s' = [] ++ ws
    /\ In (put_call (txt_execs 1000 avg)) ws
    /\ (0 = 0 -> avg = 0)
    /\ (0 <> 0 -> avg = 1000 / 0 /\ 0 * avg <= 1000 < 0 * (avg + 1)).
Proof.
  apply (on_sample average_rate_guarded 100 (init_world Sample.h)).
  wf_by_computation.
Defined.

Lemma handle_not_modified_witness :
  exists s',
    exec (sample_display 110) (init_world Sample.h) = Some s'
    /\ hfuzz s' = Sample.h
    /\ prev_exec_cnt s' = 1000.
Proof.
  apply (on_sample handle_not_modified 110 (init_world Sample.h)).
  wf_by_computation.
Defined.

(** Two calls a second apart, the workers having counted 300 iterations
    more in between. *)
Lemma rate_zero_at_cap_witness :
  exists s1 s2 ws,
    exec (sample_display 110) (init_world Sample.h) = Some s1
    /\ exec (sample_display 111) (with_hfuzz (set_mutationsCnt 1500 Sample.h) s1) = Some s2
    /\ stdout s2 = stdout s1 ++ ws
    /\ In (put_call (txt_execs 0 90)) ws.
Proof.
  apply (on_sample rate_zero_at_cap 110 111 (init_world Sample.h)
           (set_mutationsCnt 1500 Sample.h)).
  - wf_by_computation.
  - wf_by_computation.
  - reflexivity.
  - reflexivity.
  - vm_compute. discriminate.
  - vm_compute. discriminate.
Defined.

(** A stored count of 2000 above the clamped count of 1000. *)
Lemma rate_wraps_around_witness :
  exists s' ws rate,
    exec (sample_display 110) (Build_world Sample.h 2000 [] []) = Some s'
    /\ stdout s' = [] ++ ws
    /\ In (put_call (txt_execs rate 100)) ws
    /\ rate = (1000 - 2000) mod 2 ^ 64
    /\ rate = 2 ^ 64 - (2000 - 1000)
    /\ 0 < rate < 2 ^ 64.
Proof.
  apply (on_sample rate_wraps_around 110 (Build_world Sample.h 2000 [] [])).
  - split; [wf_by_computation | fits].
  - reflexivity.
Defined.

Lemma input_files_line_iff_dry_run_witness :
  exists s' ws,
    exec (sample_display 110) (init_world Sample.h) = Some s'
    /\ stdout s' = [] ++ ws
    /\ (In (put_call (txt_input_files 7)) ws
        <-> PrimFloat.eqb 0%float 0%float = true /\ true = true)
    /\ ((exists w, In w ws /\ is_input_files w = true)
        <-> PrimFloat.eqb 0%float 0%float = true /\ true = true).
Proof.
  apply (on_sample input_files_line_iff_dry_run 110 (init_world Sample.h)).
  wf_by_computation.
Defined.

(** While fuzzing with no feedback the frame has thirteen writes, none of
    them the input-file count. *)
Example frame_of_plain_campaign :
  exists s',
    exec (sample_display 110) (init_world Sample.h_plain) = Some s'
    /\ List.length (stdout s') = 13%nat
    /\ existsb is_input_files (stdout s') = false.
Proof.
  eexists. split; [apply exec_display; wf_by_computation |].
  split; vm_compute; reflexivity.
Qed.

Lemma frame_is_written_piecewise_witness :
  exists s' rest,
    exec (sample_display 110) (init_world Sample.h) = Some s'
    /\ stdout s' = [] ++ sys_write STDOUT_FILENO ESC_CLEAR 7 :: rest
    /\ (11 <= List.length rest)%nat
    /\ Forall (fun w => wr_fd w = STDOUT_FILENO /\ clears w = false) rest.
Proof.
  apply (on_sample frame_is_written_piecewise 110 (init_world Sample.h)).
  wf_by_computation.
Defined.

Lemma counters_read_atomically_but_one_witness :
  exists s' es,
    exec (sample_display 110) (init_world Sample.h) = Some s'
    /\ trace s' = [] ++ es
    /\ Forall (fun e => lock_free_access counters_read_atomically e = true) es
    /\ Forall (fun e => In e es)
              [ev_atomic_rmw "mutationsCnt"; ev_atomic_rmw "crashesCnt";
               ev_atomic_rmw "uniqueCrashesCnt"; ev_atomic_rmw "blCrashesCnt";
               ev_atomic_rmw "verifiedCrashesCnt"; ev_atomic_rmw "timeoutedCnt"]
    /\ (true = true -> In (ev_load "dynamicFileBestSz") es).
Proof.
  apply (on_sample counters_read_atomically_but_one 110 (init_world Sample.h)).
  wf_by_computation.
Defined.

(** 50 blocks hit out of 200: 25%. *)
Lemma coverage_percentage_witness :
  exists s' ws percent,
    exec (sample_display 110) (init_world Sample.h) = Some s'
    /\ stdout s' = [] ++ ws
    /\ In (put_call (txt_hit_bb 50 percent)) ws
    /\ percent = 25
    /\ (200 = 0 -> percent = 0)
    /\ (200 <> 0 -> 50 * 100 < 2 ^ 64 -> 50 * 100 / 200 < 2 ^ 8 -> percent = 50 * 100 / 200)
    /\ (200 <> 0 -> 50 <= 200 -> 50 * 100 < 2 ^ 64 -> percent = 50 * 100 / 200)
    /\ (50 <= 200 -> 0 <= percent <= 100).
Proof.
  apply (on_sample coverage_percentage 110 (init_world Sample.h)).
  - wf_by_computation.
  - reflexivity.
Defined.

(** ** Where the code departs from a claim *)

(** C3: the frame of the sample campaign takes 22 calls of [write], the
    first of which carries the clear sequence and nothing else. *)
Lemma frame_takes_many_writes :
  exists s',
    exec (sample_display 110) (init_world Sample.h) = Some s'
    /\ List.length (stdout s') = 22%nat
    /\ nth_error (stdout s') 0 = Some (sys_write STDOUT_FILENO ESC_CLEAR 7)
    /\ nth_error (stdout s') 1 = Some (put_call txt_stat).
Proof.
  eexists. split; [apply exec_display; wf_by_computation |].
  split; [| split]; vm_compute; reflexivity.
Qed.

(** C4: the size of the dynamic file is one of the counters the workers
    update, and the call reads it with a plain load. *)
Lemma dynamic_file_size_loaded_plainly :
  exists s',
    exec (sample_display 110) (init_world Sample.h) = Some s'
    /\ mentions shared_counters "dynamicFileBestSz" = true
    /\ In (ev_load "dynamicFileBestSz") (trace s')
    /\ forallb (lock_free_access shared_counters) (trace s') = false.
Proof.
  eexists. split; [apply exec_display; wf_by_computation |].
  split; [reflexivity |].
  split; [in_by_computation | vm_compute; reflexivity].
Qed.

(** C5: with 2^63 blocks hit out of 2^63 the call shows 0% where the
    quotient is 100, and with 3 hit out of 1 it shows 44% where the quotient
    is 300. *)
Lemma coverage_percentage_not_the_quotient :
  (exists s',
     exec (sample_display 110) (init_world Sample.h_huge) = Some s'
     /\ wf_hfuzz Sample.SIZE_WIDTH Sample.h_huge
     /\ In (put_call (txt_hit_bb (2 ^ 63) 0)) (stdout s')
     /\ 2 ^ 63 * 100 / 2 ^ 63 = 100)
  /\ (exists s',
        exec (sample_display 110) (init_world Sample.h_odd) = Some s'
        /\ wf_hfuzz Sample.SIZE_WIDTH Sample.h_odd
        /\ In (put_call (txt_hit_bb 3 44)) (stdout s')
        /\ 3 * 100 / 1 = 300).
Proof.
  split; eexists; (split; [apply exec_display; wf_by_computation |]);
    (split; [wf_by_computation |]);
    (split; [in_by_computation | reflexivity]).
Qed.

(** ** Further properties on the sample campaign *)

(** A text of 5000 characters: 4095 of them reach the buffer, 5000 bytes are
    asked of [write]. *)
Lemma display_put_fits_or_overruns_witness :
  exists w,
    display_put Sample.long_path (init_world Sample.h)
    = Some (tt, Build_world Sample.h 0 ([] ++ [w]) [])
    /\ wr_count w = 5000
    /\ Z.of_nat (String.length (wr_buf w)) = 4095
    /\ 4096 < wr_count w.
Proof.
  destruct (display_put_fits_or_overruns Sample.long_path (init_world Sample.h))
    as (w & Hrun & Hcount & _ & Hover & Hbig).
  { vm_compute. discriminate. }
  exists w. split; [exact Hrun |]. split; [exact Hcount |].
  split; [apply Hover; reflexivity | apply Hbig; reflexivity].
Defined.

Lemma cap_shown_iff_configured_witness :
  exists s' ws,
    exec (sample_display 110) (init_world Sample.h) = Some s'
    /\ stdout s' = [] ++ ws
    /\ shown_exactly_when ws " (out of: " (txt_out_of 1000) true.
Proof.
  apply (on_sample cap_shown_iff_configured 110 (init_world Sample.h)).
  wf_by_computation.
Defined.

Lemma remote_shown_iff_attached_witness :
  exists s' ws,
    exec (sample_display 110) (init_world Sample.h_attached) = Some s'
    /\ stdout s' = [] ++ ws
    /\ shown_exactly_when ws "Remote cmd [" (txt_remote 4242 "/usr/sbin/sshd -D") true
    /\ (true = true <-> 0 < 4242).
Proof.
  apply (on_sample remote_shown_iff_attached 110 (init_world Sample.h_attached)).
  wf_by_computation.
Defined.

Lemma feedback_header_iff_enabled_witness :
  exists s' ws,
    exec (sample_display 110) (init_world Sample.h) = Some s'
    /\ stdout s' = [] ++ ws
    /\ shown_exactly_when ws "Dynamic file size: " (txt_dynfile_size 10 20) true
    /\ shown_exactly_when ws "Dynamic file max iterations keep for chosen seed ("
                          (txt_dynfile_iter 30 8192) true
    /\ shown_exactly_when ws "Coverage (max):" txt_coverage true
    /\ (true = true <-> 2 <> 0 \/ true = true).
Proof.
  apply (on_sample feedback_header_iff_enabled 110 (init_world Sample.h)).
  wf_by_computation.
Defined.

(** Bit 2 of the sample campaign is set: the branch counter is the one
    shown. *)
Lemma counter_lines_iff_bits_witness :
  exists s' ws,
    exec (sample_display 110) (init_world Sample.h) = Some s'
    /\ stdout s' = [] ++ ws
    /\ shown_exactly_when ws "  - cpu instructions:      " (txt_instr 11) false
    /\ shown_exactly_when ws "  - cpu branches:          " (txt_branch 22) true
    /\ shown_exactly_when ws "  - BTS unique blocks: " (txt_bts_block 33) false
    /\ shown_exactly_when ws "  - BTS unique edges:   " (txt_bts_edge 44) false
    /\ shown_exactly_when ws "  - PT unique blocks: " (txt_ipt_block 55) false
    /\ shown_exactly_when ws "  - custom counter:        " (txt_custom 66) false.
Proof.
  apply (on_sample counter_lines_iff_bits 110 (init_world Sample.h)).
  wf_by_computation.
Defined.

Lemma sancov_lines_iff_enabled_witness :
  exists s' ws,
    exec (sample_display 110) (init_world Sample.h) = Some s'
    /\ stdout s' = [] ++ ws
    /\ shown_exactly_when ws "  - total hit #bb:  " (txt_hit_bb 50 25) true
    /\ shown_exactly_when ws "  - total #dso:     " (txt_dso 3) true
    /\ shown_exactly_when ws "  - discovered #bb: " (txt_new_bb 4) true
    /\ shown_exactly_when ws "  - crashes:        " (txt_sancov_crashes 5) true.
Proof.
  apply (on_sample sancov_lines_iff_enabled 110 (init_world Sample.h)).
  wf_by_computation.
Defined.

Lemma frame_size_witness :
  exists s' ws,
    exec (sample_display 110) (init_world Sample.h) = Some s'
    /\ stdout s' = [] ++ ws
    /\ List.length ws = 22%nat
    /\ (12 <= List.length ws <= 28)%nat.
Proof.
  apply (on_sample frame_size 110 (init_world Sample.h)).
  wf_by_computation.
Defined.

Lemma frame_between_banners_witness :
  exists s' ws mid,
    exec (sample_display 110) (init_world Sample.h) = Some s'
    /\ stdout s' = [] ++ ws
    /\ ws = put_call ESC_CLEAR :: put_call txt_stat :: mid ++ [put_call txt_logs]
    /\ last ws (put_call ESC_CLEAR) = put_call txt_logs.
Proof.
  apply (on_sample frame_between_banners 110 (init_world Sample.h)).
  wf_by_computation.
Defined.

(** An input path of 5000 characters: 5027 bytes are asked of [write]. *)
Lemma long_input_path_overruns_buffer_witness :
  exists s' ws w,
    exec (sample_display 110) (init_world Sample.h_long) = Some s'
    /\ In w ws
    /\ stdout s' = [] ++ ws
    /\ wr_count w = 5027
    /\ Z.of_nat (String.length (wr_buf w)) = 4095.
Proof.
  destruct (on_sample long_input_path_overruns_buffer 110 (init_world Sample.h_long))
    as (s' & ws & w & Hrun & Hout & Hin & _ & Hcount & Hlong).
  { wf_by_computation. }
  exists s', ws, w. split; [exact Hrun |]. split; [exact Hin |]. split; [exact Hout |].
  split; [exact Hcount |]. apply Hlong. reflexivity.
Defined.


Lemma displayed_count_is_min_witness :
  exists s' ws shown,
    exec (sample_display 110) (init_world Sample.h) = Some s'
    /\ stdout s' = [] ++ ws
    /\ nth_error ws 2 = Some (put_call (txt_iterations shown))
    /\ prev_exec_cnt s' = shown
    /\ (0 < 1000 -> shown = Z.min 1200 1000)
    /\ (1000 = 0 -> shown = 1200)
    /\ 0 <= shown <= 1200.
Proof.
  apply (on_sample displayed_count_is_min 110 (init_world Sample.h)).
  wf_by_computation.
Defined.

Lemma display_display_keeps_state_valid_witness :
  exists s',
    exec (on_sample display_display 110) (init_world Sample.h) = Some s'
    /\ wf_world Sample.SIZE_WIDTH s'
    /\ (0 < 1000 -> prev_exec_cnt s' <= 1000).
Proof.
  apply (on_sample display_display_keeps_state_valid 110 (init_world Sample.h)).
  wf_by_computation.
Defined.

(** Without a cap, 1200 iterations at the first call and 1500 at the next: a
    rate of 300. *)
Lemma rate_between_calls_witness :
  exists s1 s2 ws rate,
    exec (on_sample display_display 110) (init_world Sample.h_nocap) = Some s1
    /\ exec (on_sample display_display 111)
            (with_hfuzz (set_mutationsCnt 1500 Sample.h_nocap) s1) = Some s2
    /\ stdout s2 = stdout s1 ++ ws
    /\ In (put_call (txt_execs rate (avg_exec_per_sec 1500 11))) ws
    /\ rate = 1500 - 1200
    /\ 0 <= rate
    /\ (1500 = 1200 -> rate = 0).
Proof.
  apply (on_sample rate_between_calls 110 111 (init_world Sample.h_nocap)
           (set_mutationsCnt 1500 Sample.h_nocap)).
  - wf_by_computation.
  - wf_by_computation.
  - reflexivity.
  - vm_compute. discriminate.
Defined.

Lemma elapsed_seconds_shown_witness :
  exists s' ws elapsed,
    exec (sample_display 110) (init_world Sample.h) = Some s'
    /\ stdout s' = [] ++ ws
    /\ In (put_call (txt_start_time "2016-01-01 00:00:00" elapsed)) ws
    /\ 0 <= elapsed < 2 ^ 64
    /\ (100 <= 110 < 100 + 2 ^ 64 -> elapsed = 110 - 100)
    /\ (110 < 100 <= 110 + 2 ^ 64 -> elapsed = 2 ^ 64 - (100 - 110)).
Proof.
  apply (on_sample elapsed_seconds_shown 110 (init_world Sample.h)).
  wf_by_computation.
Defined.

Lemma average_rate_bounded_witness :
  exists s' ws avg,
    exec (sample_display 110) (init_world Sample.h) = Some s'
    /\ stdout s' = [] ++ ws
    /\ In (put_call (txt_execs 1000 avg)) ws
    /\ 0 <= avg <= 1000
    /\ (1000 < 10 -> avg = 0).
Proof.
  apply (on_sample average_rate_bounded 110 (init_world Sample.h)).
  wf_by_computation.
Defined.

Lemma members_loaded_on_demand_witness :
  exists s' es,
    exec (sample_display 110) (init_world Sample.h_attached) = Some s'
    /\ trace s' = [] ++ es
    /\ existsb (loads "pidCmd") es = true
    /\ existsb (loads "useVerifier") es = true
    /\ existsb (loads "fileCnt") es = true
    /\ existsb (loads "dynamicFileBestSz") es = true
    /\ existsb (loads "maxFileSz") es = true.
Proof.
  apply (on_sample members_loaded_on_demand 110 (init_world Sample.h_attached)).
  wf_by_computation.
Defined.

Lemma counters_touched_only_when_shown_witness :
  exists s' es,
    exec (sample_display 110) (init_world Sample.h) = Some s'
    /\ trace s' = [] ++ es
    /\ existsb (bumps "dynFileIterExpire") es = true
    /\ existsb (bumps "hwCnts.cpuInstrCnt") es = false
    /\ existsb (bumps "hwCnts.cpuBranchCnt") es = true
    /\ existsb (bumps "hwCnts.cpuBtsBlockCnt") es = false
    /\ existsb (bumps "hwCnts.cpuBtsEdgeCnt") es = false
    /\ existsb (bumps "hwCnts.cpuIptBlockCnt") es = false
    /\ existsb (bumps "hwCnts.customCnt") es = false
    /\ Forall (fun member => existsb (bumps member) es = true)
              ["sanCovCnts.hitBBCnt"; "sanCovCnts.totalBBCnt"; "sanCovCnts.iDsoCnt";
               "sanCovCnts.newBBCnt"; "sanCovCnts.crashesCnt"].
Proof.
  apply (on_sample counters_touched_only_when_shown 110 (init_world Sample.h)).
  wf_by_computation.
Defined.
